(** * Verification of the AI image-acquisition pipeline

    Shallow embedding of [src/ai_image_generator.py] (class
    [AIImageGenerator]) and of the single-provider acquisition path of
    [src/gpt_site_generator.py] ([generate_product_image],
    [get_smart_fallback_image]).

    Modelling conventions.
    - Python [str] is [String.string]; [str.lower] is ASCII lower-casing.
    - Python [int] is [Z]; [%] on a positive divisor is [Z.modulo] (both
      floor the quotient), division by zero raises.
    - A Python [dict] with string keys is an association list in insertion
      order; [d[k]] raises [KeyError] when [k] is absent, [d.get(k, v)]
      returns [v] then.
    - Exceptions are the [Raise] case of [exc]; code that talks to the
      network runs in the monad [M] that threads the scripted network
      responses, the log of requests and sleeps, and the clock. *)

From Stdlib Require Import String Ascii List ZArith Lia Bool.
Import ListNotations.
Open Scope string_scope.
Open Scope Z_scope.

(* ------------------------------------------------------------------ *)
(** ** Python values: exceptions, strings, lists, dicts *)

Inductive exc (A : Type) : Type :=
| Ok (a : A)
| Raise (e : string).
Arguments Ok {A} a.
Arguments Raise {A} e.

Definition exc_bind {A B} (m : exc A) (k : A -> exc B) : exc B :=
  match m with
  | Ok a => k a
  | Raise e => Raise e
  end.

Notation "x <-? m ;; k" := (exc_bind m (fun x => k))
  (at level 61, m at next level, right associativity).

(** ASCII [str.lower]. *)
Definition lower_ascii (c : ascii) : ascii :=
  let n := nat_of_ascii c in
  if (Nat.leb 65 n && Nat.leb n 90)%bool then ascii_of_nat (n + 32) else c.

Fixpoint lower (s : string) : string :=
  match s with
  | EmptyString => EmptyString
  | String c r => String (lower_ascii c) (lower r)
  end.

(** Python [sub in s]: substring membership. *)
Fixpoint contains (sub s : string) : bool :=
  if String.prefix sub s then true
  else match s with
       | EmptyString => false
       | String _ r => contains sub r
       end.

(** Python [s.replace(old, new)] for a non-empty [old]: every
    non-overlapping occurrence, left to right. *)
Fixpoint replace_fuel (fuel : nat) (old new s : string) : string :=
  match fuel with
  | O => s
  | S f =>
      match s with
      | EmptyString => EmptyString
      | String c r =>
          if String.prefix old s
          then new ++ replace_fuel f old new
                      (String.substring (String.length old)
                         (String.length s - String.length old) s)
          else String c (replace_fuel f old new r)
      end
  end.

Definition py_replace (old new s : string) : string :=
  replace_fuel (String.length s) old new s.

(** Decimal rendering of a non-negative integer, as [str(n)] / f-strings;
    [Z.log2 n + 1] bounds the number of decimal digits. *)
Fixpoint digits_fuel (fuel : nat) (n : Z) (acc : string) : string :=
  match fuel with
  | O => acc
  | S f =>
      let d := String (ascii_of_nat (48 + Z.to_nat (n mod 10))) acc in
      if n <? 10 then d else digits_fuel f (n / 10) d
  end.

Definition show_Z (z : Z) : string :=
  let n := Z.abs z in
  let s := digits_fuel (S (Z.to_nat (Z.log2 n))) n "" in
  if z <? 0 then "-" ++ s else s.

(** Python [a % b] on integers. *)
Definition py_mod (a b : Z) : exc Z :=
  if b =? 0 then Raise "ZeroDivisionError" else Ok (a mod b).

(** Python [l[i]] on a list. *)
Definition py_index {A} (l : list A) (i : Z) : exc A :=
  let n := Z.of_nat (List.length l) in
  let j := if i <? 0 then i + n else i in
  if (0 <=? j) && (j <? n) then
    match nth_error l (Z.to_nat j) with
    | Some x => Ok x
    | None => Raise "IndexError"
    end
  else Raise "IndexError".

(** A dict with string keys. *)
Definition dict (V : Type) := list (string * V).

Fixpoint dict_lookup {V} (d : dict V) (k : string) : option V :=
  match d with
  | [] => None
  | (k', v) :: r => if String.eqb k k' then Some v else dict_lookup r k
  end.

(** [d[k]] *)
Definition dict_getitem {V} (d : dict V) (k : string) : exc V :=
  match dict_lookup d k with
  | Some v => Ok v
  | None => Raise "KeyError"
  end.

(** [d.get(k, default)] *)
Definition dict_get {V} (d : dict V) (k : string) (default : V) : V :=
  match dict_lookup d k with
  | Some v => v
  | None => default
  end.

(* ------------------------------------------------------------------ *)
(** ** [AIImageGenerator.categorize_product] *)

Definition tech_keywords : list string :=
  ["smart"; "ai"; "tech"; "app"; "software"; "digital"; "robot"; "drone";
   "gadget"; "device"; "electronic"; "computer"; "mobile"; "laptop";
   "camera"; "headphone"; "speaker"; "watch"].

Definition food_keywords : list string :=
  ["food"; "drink"; "coffee"; "tea"; "restaurant"; "cafe"; "kitchen";
   "recipe"; "meal"; "pizza"; "burger"; "cake"; "wine"; "beer"; "juice";
   "bakery"].

Definition fashion_keywords : list string :=
  ["fashion"; "clothing"; "style"; "dress"; "shirt"; "pants"; "shoes"; "bag";
   "accessory"; "jewelry"; "boutique"; "designer"; "apparel"].

Definition health_keywords : list string :=
  ["health"; "wellness"; "fitness"; "yoga"; "gym"; "medical"; "therapy";
   "nutrition"; "vitamin"; "supplement"; "exercise"; "workout"; "spa"].

Definition business_keywords : list string :=
  ["business"; "corporate"; "company"; "service"; "consulting";
   "professional"; "office"; "team"; "solution"; "agency"; "marketing"].

(** [for keyword in kws: if keyword in s: return tag] *)
Definition any_keyword_in (kws : list string) (s : string) : bool :=
  existsb (fun keyword => contains keyword s) kws.

Definition categorize_product (product_name : string) : string :=
  let product_lower := lower product_name in
  if any_keyword_in tech_keywords product_lower then "technology"
  else if any_keyword_in food_keywords product_lower then "food_beverage"
  else if any_keyword_in fashion_keywords product_lower then "fashion"
  else if any_keyword_in health_keywords product_lower then "health_wellness"
  else if any_keyword_in business_keywords product_lower then "business"
  else "technology".

(* ------------------------------------------------------------------ *)
(** ** [AIImageGenerator.themes], [image_types], [generate_prompt] *)

Record theme := {
  styles : list string;
  environments : list string;
  lighting : list string
}.

Definition themes : dict theme := [
  ("technology",
   {| styles := ["futuristic"; "sleek modern"; "minimalist tech"; "cyberpunk"; "professional studio"];
      environments := ["clean white background"; "modern office setting"; "futuristic lab"; "tech workspace"; "gradient backdrop"];
      lighting := ["studio lighting"; "LED accent lighting"; "soft ambient glow"; "dramatic tech lighting"; "natural daylight"] |});
  ("food_beverage",
   {| styles := ["appetizing commercial"; "rustic artisan"; "modern culinary"; "cozy restaurant"; "gourmet presentation"];
      environments := ["marble countertop"; "wooden table setting"; "restaurant kitchen"; "cafe atmosphere"; "outdoor dining"];
      lighting := ["warm golden lighting"; "soft natural light"; "dramatic food photography"; "cozy ambient lighting"; "bright daylight"] |});
  ("fashion",
   {| styles := ["high fashion editorial"; "street style casual"; "luxury boutique"; "trendy modern"; "classic elegant"];
      environments := ["fashion studio backdrop"; "urban street scene"; "luxury boutique"; "minimalist setting"; "artistic backdrop"];
      lighting := ["professional fashion lighting"; "natural portrait lighting"; "dramatic fashion photography"; "soft beauty lighting"; "editorial lighting"] |});
  ("health_wellness",
   {| styles := ["clean wellness aesthetic"; "natural organic"; "medical professional"; "fitness focused"; "spa luxury"];
      environments := ["clean medical setting"; "natural outdoor environment"; "modern gym"; "spa atmosphere"; "wellness center"];
      lighting := ["clean bright lighting"; "soft natural lighting"; "professional medical lighting"; "warm wellness lighting"; "energizing daylight"] |});
  ("business",
   {| styles := ["corporate professional"; "modern business"; "executive luxury"; "startup innovative"; "consulting expert"];
      environments := ["modern office"; "conference room"; "executive suite"; "business center"; "corporate lobby"];
      lighting := ["professional office lighting"; "executive lighting"; "modern business lighting"; "confident lighting"; "corporate ambiance"] |})
].

Record image_config := {
  size : string;
  description : string;
  style_modifier : string
}.

Definition image_types : dict image_config := [
  ("hero_background",
   {| size := "1920x1080"; description := "wide panoramic background image";
      style_modifier := "cinematic wide shot" |});
  ("product_showcase",
   {| size := "800x600"; description := "product focused image";
      style_modifier := "product photography" |});
  ("feature_icon",
   {| size := "400x400"; description := "feature illustration";
      style_modifier := "icon style graphic" |});
  ("gallery_item",
   {| size := "600x400"; description := "lifestyle image";
      style_modifier := "lifestyle photography" |})
].

(** [self.themes.get(theme, self.themes['technology'])] *)
Definition theme_data_of (theme_name : string) : exc theme :=
  dflt <-? dict_getitem themes "technology" ;;
  Ok (dict_get themes theme_name dflt).

(** [self.image_types.get(image_type, self.image_types['product_showcase'])] *)
Definition image_config_of (image_type : string) : exc image_config :=
  dflt <-? dict_getitem image_types "product_showcase" ;;
  Ok (dict_get image_types image_type dflt).

(** The (style, environment, lighting) triple picked by [variation]. *)
Definition select_variation (theme_data : theme) (variation : Z)
  : exc (string * string * string) :=
  i <-? py_mod variation (Z.of_nat (List.length (styles theme_data))) ;;
  style <-? py_index (styles theme_data) i ;;
  j <-? py_mod variation (Z.of_nat (List.length (environments theme_data))) ;;
  environment <-? py_index (environments theme_data) j ;;
  k <-? py_mod variation (Z.of_nat (List.length (lighting theme_data))) ;;
  light <-? py_index (lighting theme_data) k ;;
  Ok (style, environment, light).

Definition quality_suffix : string :=
  ", 8K resolution, professional photography, commercial quality, detailed, vibrant colors".

Definition generate_prompt (product_name image_type theme_name : string)
  (variation : Z) : exc string :=
  theme_data <-? theme_data_of theme_name ;;
  cfg <-? image_config_of image_type ;;
  sel <-? select_variation theme_data variation ;;
  let '(style, environment, light) := sel in
  let prompt :=
    if String.eqb image_type "hero_background" then
      "Professional " ++ style ++ " " ++ description cfg ++ " featuring "
      ++ product_name ++ ", " ++ environment ++ ", " ++ light ++ ", "
      ++ style_modifier cfg ++ ", high quality, detailed, commercial photography"
    else if String.eqb image_type "product_showcase" then
      style ++ " " ++ style_modifier cfg ++ " of " ++ product_name ++ ", "
      ++ environment ++ ", " ++ light
      ++ ", professional commercial quality, detailed, sharp focus"
    else if String.eqb image_type "feature_icon" then
      "Modern " ++ style_modifier cfg ++ " representing " ++ product_name
      ++ " features, " ++ style ++ " design, clean, professional, " ++ light
    else
      style ++ " " ++ style_modifier cfg ++ " showing " ++ product_name
      ++ " in use, " ++ environment ++ ", " ++ light ++ ", realistic, high quality"
  in
  Ok (prompt ++ quality_suffix).

(* ------------------------------------------------------------------ *)
(** ** The network, the clock and the state monad *)

(** What one HTTP request returns: a status code with its body, or an
    exception raised by [requests] (timeout, connection error). *)
Inductive response :=
| Resp (status_code : Z) (content : string)
| NetError (msg : string).

(** Observable effects, in the order they happen. *)
Inductive event :=
| EPost (url : string)
| EGet (url : string)
| ESleep (seconds : Z).

Record St := {
  net : list response;   (** responses still to come, in request order *)
  log : list event;      (** requests and sleeps done so far *)
  clock : Z              (** [int(time.time())] *)
}.

Definition M (A : Type) := St -> exc A * St.

Definition ret {A} (a : A) : M A := fun s => (Ok a, s).

Definition bind {A B} (m : M A) (k : A -> M B) : M B :=
  fun s => match m s with
           | (Ok a, s') => k a s'
           | (Raise e, s') => (Raise e, s')
           end.

Notation "x <- m ;; k" := (bind m (fun x => k))
  (at level 61, m at next level, right associativity).
Notation "m ;;; k" := (bind m (fun _ => k))
  (at level 61, right associativity).

Definition raise {A} (e : string) : M A := fun s => (Raise e, s).

Definition lift {A} (m : exc A) : M A := fun s => (m, s).

(** [try: m except Exception as e: h(e)] *)
Definition catch {A} (m : M A) (h : string -> M A) : M A :=
  fun s => match m s with
           | (Raise e, s') => h e s'
           | r => r
           end.

Definition now : M Z := fun s => (Ok (clock s), s).

Definition record_event (e : event) (s : St) : St :=
  {| net := net s; log := log s ++ [e]; clock := clock s |}.

(** [time.sleep(n)] *)
Definition sleep (n : Z) : M unit :=
  fun s => (Ok tt, {| net := net s; log := log s ++ [ESleep n];
                      clock := clock s + n |}).

(** One request: logged, then answered by the next scripted response;
    [requests] raises on a network error (and here when no response is
    left). *)
Definition http (e : event) : M (Z * string) :=
  fun s =>
    let s1 := record_event e s in
    match net s1 with
    | Resp c body :: rest =>
        (Ok (c, body), {| net := rest; log := log s1; clock := clock s1 |})
    | NetError m :: rest =>
        (Raise m, {| net := rest; log := log s1; clock := clock s1 |})
    | [] => (Raise "ConnectionError", s1)
    end.

Definition http_post (url : string) : M (Z * string) := http (EPost url).
Definition http_get (url : string) : M (Z * string) := http (EGet url).

(* ------------------------------------------------------------------ *)
(** ** [AIImageGenerator.__init__] and the three provider adapters *)

(** The generator's configuration and the world it writes to:
    [self.output_dir] and the API keys read from the environment
    ([os.getenv(..., '')]); [can_write path] is whether
    [open(path, 'wb')] and the write succeed in the file system (the
    directory of [path] exists and may be written: [__init__] creates
    [output_dir], nothing else in the module creates directories, so this
    does not change during a run); [stability_decodes body] is whether
    [response.json()['artifacts'][0]['base64']] is found in a Stability AI
    answer and base64-decodes (JSON and base64 decoding are not modelled). *)
Record Gen := {
  output_dir : string;
  openai_api_key : string;
  stability_api_key : string;
  huggingface_token : string;
  can_write : string -> bool;
  stability_decodes : string -> bool
}.

(** [path.endswith('/')] *)
Fixpoint ends_with_slash (s : string) : bool :=
  match s with
  | EmptyString => false
  | String c EmptyString => Ascii.eqb c "/"
  | String _ r => ends_with_slash r
  end.

(** [os.path.join(a, b)] ([posixpath.join]): an absolute [b] replaces [a];
    otherwise [b] is appended, with a separator unless [a] is empty or
    already ends with one. *)
Definition path_join (a b : string) : string :=
  if String.prefix "/" b then b
  else if String.eqb a "" || ends_with_slash a then a ++ b
  else a ++ "/" ++ b.

(** Python truthiness of [Optional[str]] / [bytes]. *)
Definition truthy (o : option string) : bool :=
  match o with
  | Some s => negb (String.eqb s "")
  | None => false
  end.

Definition dalle_url : string := "https://api.openai.com/v1/images/generations".
Definition stability_url : string :=
  "https://api.stability.ai/v1/generation/stable-diffusion-xl-1024-v1-0/text-to-image".
Definition hf_url_primary : string :=
  "https://api-inference.huggingface.co/models/stabilityai/stable-diffusion-2-1".
Definition hf_url_simple : string :=
  "https://api-inference.huggingface.co/models/runwayml/stable-diffusion-v1-5".

(** [generate_with_openai_dalle]: the body of a 200 answer is abstracted to
    the image URL it carries ([result['data'][0]['url']]); every exception
    is caught and turned into [None].  The request size only shapes the
    request body, which is not modelled. *)
Definition generate_with_openai_dalle (g : Gen) (prompt size : string)
  : M (option string) :=
  if String.eqb (openai_api_key g) "" then ret None
  else catch
         (r <- http_post dalle_url ;;
          let '(code, body) := r in
          if code =? 200 then ret (Some body) else ret None)
         (fun _ => ret None).

(** [generate_with_stability_ai]: on 200 the decoded image is written to
    [os.path.join(output_dir, "stability_<timestamp>.png")], whose path is
    returned; a body without a decodable artifact, or a failed write,
    raises, and the exception is turned into [None]. *)
Definition generate_with_stability_ai (g : Gen) (prompt size : string)
  : M (option string) :=
  if String.eqb (stability_api_key g) "" then ret None
  else catch
         (r <- http_post stability_url ;;
          let '(code, body) := r in
          if code =? 200 then
            if stability_decodes g body then
              timestamp <- now ;;
              let filepath := path_join (output_dir g)
                                ("stability_" ++ show_Z timestamp ++ ".png") in
              if can_write g filepath then ret (Some filepath)
              else raise "IOError"
            else raise "KeyError"
          else ret None)
         (fun _ => ret None).

(** [generate_with_huggingface]: returns the raw image content, or raises. *)
Definition generate_with_huggingface (g : Gen) (prompt : string) : M string :=
  let token := huggingface_token g in
  if String.eqb token "" then raise "HUGGINGFACE_TOKEN not found in environment"
  else
    let still_failing (r : Z * string) : M string :=
      let '(code, text) := r in
      if negb (code =? 200) then
        r2 <- http_post hf_url_simple ;;
        let '(code2, text2) := r2 in
        if code2 =? 200 then ret text2
        else raise (show_Z code2 ++ " - " ++ text2)
      else raise (show_Z code ++ " - " ++ text) in
    catch
      (r <- http_post hf_url_primary ;;
       let '(code, content) := r in
       if code =? 200 then ret content
       else if code =? 503 then
         sleep 10 ;;;
         r' <- http_post hf_url_primary ;;
         let '(code', content') := r' in
         if code' =? 200 then ret content'
         else still_failing r'
       else still_failing r)
      (fun e => raise ("Hugging Face API error: " ++ e)).

(** [download_image]: a failed [open] or write raises, and the exception
    is turned into [None]. *)
Definition download_image (g : Gen) (url filename : string) : M (option string) :=
  catch
    (r <- http_get url ;;
     let '(code, _) := r in
     if code =? 200 then
       let filepath := path_join (output_dir g) filename in
       if can_write g filepath then ret (Some filepath) else raise "IOError"
     else ret None)
    (fun _ => ret None).

(** The DALL-E file name,
    [f"{product_name.replace(' ', '_').lower()}_{image_type}_{i+1}_{int(time.time())}.png"]. *)
Definition dalle_filename (product_name image_type : string) (i timestamp : Z) : string :=
  lower (py_replace " " "_" product_name) ++ "_" ++ image_type ++ "_"
  ++ show_Z (i + 1) ++ "_" ++ show_Z timestamp ++ ".png".

(* ------------------------------------------------------------------ *)
(** ** [AIImageGenerator.generate_product_images] *)

(** The provider attempts for one requested image (the body of the inner
    [for i in range(count)] loop up to the bookkeeping): DALL-E then
    download, Stability AI, Hugging Face, each gated by the preference and
    by the previous attempts having produced no path. *)
Definition acquire_image (g : Gen) (api_preference product_name image_type : string)
  (i : Z) (prompt size : string) : M (option string) :=
  image_path <-
    (if String.eqb api_preference "dalle" || String.eqb api_preference "auto" then
       image_url <- generate_with_openai_dalle g prompt size ;;
       if truthy image_url then
         timestamp <- now ;;
         let filename := dalle_filename product_name image_type i timestamp in
         download_image g (match image_url with Some u => u | None => "" end) filename
       else ret None
     else ret None) ;;
  image_path <-
    (if negb (truthy image_path)
        && (String.eqb api_preference "stability" || String.eqb api_preference "auto")
     then generate_with_stability_ai g prompt size
     else ret image_path) ;;
  image_path <-
    (if negb (truthy image_path)
        && (String.eqb api_preference "huggingface" || String.eqb api_preference "auto")
     then catch
            (image_content <- generate_with_huggingface g prompt ;;
             if negb (String.eqb image_content "") then
               timestamp <- now ;;
               let filename := "huggingface_" ++ image_type ++ "_" ++ show_Z i
                               ++ "_" ++ show_Z timestamp ++ ".png" in
               let filepath := path_join (output_dir g) filename in
               if can_write g filepath then ret (Some filepath) else raise "IOError"
             else ret image_path)
            (fun _ => ret image_path)
     else ret image_path) ;;
  ret image_path.

(** [generated_images[key].append(v)] *)
Fixpoint dict_append (d : dict (list string)) (key v : string)
  : exc (dict (list string)) :=
  match d with
  | [] => Raise "KeyError"
  | (k, l) :: r =>
      if String.eqb key k then Ok ((k, (l ++ [v])%list) :: r)
      else d' <-? dict_append r key v ;; Ok ((k, l) :: d')
  end.

Definition image_configs : list (string * Z) :=
  [("hero_background", 1); ("product_showcase", 2); ("feature_icon", 3);
   ("gallery_item", 4)].

Definition initial_images : dict (list string) :=
  [("hero_background", []); ("product_showcase", []); ("feature_icons", []);
   ("gallery_items", [])].

(** One iteration of the inner loop. *)
Definition generate_one (g : Gen) (api_preference product_name category image_type : string)
  (i : Z) (generated_images : dict (list string)) : M (dict (list string)) :=
  prompt <- lift (generate_prompt product_name image_type category i) ;;
  cfg <- lift (dict_getitem image_types image_type) ;;
  image_path <- acquire_image g api_preference product_name image_type i prompt (size cfg) ;;
  generated_images <-
    (match image_path with
     | Some p =>
         if truthy image_path then
           lift (if String.eqb image_type "feature_icon"
                 then dict_append generated_images "feature_icons" p
                 else if String.eqb image_type "gallery_item"
                 then dict_append generated_images "gallery_items" p
                 else dict_append generated_images image_type p)
         else ret generated_images
     | None => ret generated_images
     end) ;;
  sleep 1 ;;;
  ret generated_images.

(** [for x in xs: acc = body(x, acc)] *)
Fixpoint for_each {A B} (xs : list A) (body : A -> B -> M B) (acc : B) : M B :=
  match xs with
  | [] => ret acc
  | x :: r => acc' <- body x acc ;; for_each r body acc'
  end.

(** [range(count)] *)
Definition py_range (count : Z) : list Z :=
  map Z.of_nat (seq 0 (Z.to_nat count)).

Definition generate_product_images (g : Gen) (product_name api_preference : string)
  : M (dict (list string)) :=
  let category := categorize_product product_name in
  for_each image_configs
    (fun '(image_type, count) imgs =>
       for_each (py_range count)
         (fun i imgs' => generate_one g api_preference product_name category image_type i imgs')
         imgs)
    initial_images.

(* ------------------------------------------------------------------ *)
(** ** [AIImageGenerator.generate_for_website] *)

Record website_data := {
  success : bool;
  wd_product_name : string;
  wd_category : string;
  wd_images : dict (list string);
  generated_at : Z;
  total_images : Z
}.

Definition generate_for_website (g : Gen) (product_name api_preference : string)
  : M website_data :=
  images <- generate_product_images g product_name api_preference ;;
  let web_images :=
    map (fun '(image_type, paths) =>
           (image_type, map (py_replace (output_dir g) "/generated_images") paths))
        images in
  t <- now ;;
  ret {| success := true;
         wd_product_name := product_name;
         wd_category := categorize_product product_name;
         wd_images := web_images;
         generated_at := t;
         total_images := fold_left Z.add
                           (map (fun '(_, paths) => Z.of_nat (List.length paths)) images) 0 |}.

(* ------------------------------------------------------------------ *)
(** ** [gpt_site_generator.get_smart_fallback_image] and
       [gpt_site_generator.generate_product_image] *)

Definition fb_tech_words : list string :=
  ["laptop"; "computer"; "gaming"; "mouse"; "keyboard"; "phone"; "smartphone";
   "tablet"; "headphones"; "tech"; "electronic"; "device"; "gadget"].
Definition fb_fashion_words : list string :=
  ["fashion"; "clothing"; "accessory"; "bag"; "handbag"; "watch"; "jewelry";
   "shoes"; "apparel"].
Definition fb_food_words : list string :=
  ["coffee"; "food"; "beverage"; "drink"; "kitchen"; "cooking"; "restaurant";
   "culinary"].
Definition fb_health_words : list string :=
  ["health"; "fitness"; "wellness"; "medical"; "yoga"; "exercise";
   "supplement"; "beauty"].

Definition tech_images : list string := [
  "https://images.unsplash.com/photo-1593642632823-8f785ba67e45?w=800&h=600&fit=crop&q=80";
  "https://images.unsplash.com/photo-1542751371-adc38448a05e?w=800&h=600&fit=crop&q=80";
  "https://images.unsplash.com/photo-1583394838336-acd977736f90?w=800&h=600&fit=crop&q=80";
  "https://images.unsplash.com/photo-1511707171634-5f897ff02aa9?w=800&h=600&fit=crop&q=80"].
Definition fashion_images : list string := [
  "https://images.unsplash.com/photo-1553062407-98eeb64c6a62?w=800&h=600&fit=crop&q=80";
  "https://images.unsplash.com/photo-1594223274512-ad4803739b7c?w=800&h=600&fit=crop&q=80";
  "https://images.unsplash.com/photo-1549298916-b41d501d3772?w=800&h=600&fit=crop&q=80";
  "https://images.unsplash.com/photo-1492707892479-7bc8d5a4ee93?w=800&h=600&fit=crop&q=80"].
Definition food_images : list string := [
  "https://images.unsplash.com/photo-1447933601403-0c6688de566e?w=800&h=600&fit=crop&q=80";
  "https://images.unsplash.com/photo-1556909114-f6e7ad7d3136?w=800&h=600&fit=crop&q=80";
  "https://images.unsplash.com/photo-1498837167922-ddd27525d352?w=800&h=600&fit=crop&q=80";
  "https://images.unsplash.com/photo-1555126634-323283e090fa?w=800&h=600&fit=crop&q=80"].
Definition health_images : list string := [
  "https://images.unsplash.com/photo-1571019613454-1cb2f99b2d8b?w=800&h=600&fit=crop&q=80";
  "https://images.unsplash.com/photo-1544367567-0f2fcb009e0b?w=800&h=600&fit=crop&q=80";
  "https://images.unsplash.com/photo-1505751172876-fa1923c5c528?w=800&h=600&fit=crop&q=80";
  "https://images.unsplash.com/photo-1559056199-641a0ac8b55e?w=800&h=600&fit=crop&q=80"].
Definition default_image : string :=
  "https://images.unsplash.com/photo-1560472354-b33ff0c44a43?w=800&h=600&fit=crop&q=80".

(** The keyword domains of the resolver, in the order its [if]/[elif]
    chain tests them. *)
Inductive domain := DTech | DFashion | DFood | DHealth.

Definition domain_words (d : domain) : list string :=
  match d with
  | DTech => fb_tech_words | DFashion => fb_fashion_words
  | DFood => fb_food_words | DHealth => fb_health_words
  end.

Definition domain_images (d : domain) : list string :=
  match d with
  | DTech => tech_images | DFashion => fashion_images
  | DFood => food_images | DHealth => health_images
  end.

(** The domain whose branch [get_smart_fallback_image] takes. *)
Definition fallback_domain (prompt : string) : option domain :=
  let prompt_lower := lower prompt in
  if any_keyword_in fb_tech_words prompt_lower then Some DTech
  else if any_keyword_in fb_fashion_words prompt_lower then Some DFashion
  else if any_keyword_in fb_food_words prompt_lower then Some DFood
  else if any_keyword_in fb_health_words prompt_lower then Some DHealth
  else None.

(** Every URL the resolver can return. *)
Definition fallback_known_set : list string :=
  tech_images ++ fashion_images ++ food_images ++ health_images ++ [default_image].

(** What the OpenAI client call [client.images.generate(...)] does. *)
Inductive dalle_outcome :=
| DalleData (urls : list string)   (** [response.data] *)
| RateLimitError
| BadRequestError
| OtherError (msg : string).

Section Fallback.

(** Python's [hash] on [str]: fixed within one interpreter process (it is
    salted per process unless [PYTHONHASHSEED] is set). *)
Variable py_hash : string -> Z.

Definition get_smart_fallback_image (prompt : string) : exc string :=
  let prompt_lower := lower prompt in
  if any_keyword_in fb_tech_words prompt_lower then
    i <-? py_mod (py_hash prompt) (Z.of_nat (List.length tech_images)) ;;
    py_index tech_images i
  else if any_keyword_in fb_fashion_words prompt_lower then
    i <-? py_mod (py_hash prompt) (Z.of_nat (List.length fashion_images)) ;;
    py_index fashion_images i
  else if any_keyword_in fb_food_words prompt_lower then
    i <-? py_mod (py_hash prompt) (Z.of_nat (List.length food_images)) ;;
    py_index food_images i
  else if any_keyword_in fb_health_words prompt_lower then
    i <-? py_mod (py_hash prompt) (Z.of_nat (List.length health_images)) ;;
    py_index health_images i
  else Ok default_image.

(** [generate_product_image(prompt)]: [openai_api_key] is
    [os.getenv('OPENAI_API_KEY', '')]; the client call's result is
    [outcome].  Every failure returns the smart fallback. *)
Definition generate_product_image (openai_api_key : string)
  (outcome : dalle_outcome) (prompt : string) : exc string :=
  if String.eqb openai_api_key "" || String.eqb openai_api_key "your_openai_key_here"
  then get_smart_fallback_image prompt
  else match outcome with
       | DalleData (image_url :: _) => Ok image_url
       | DalleData [] => get_smart_fallback_image prompt
       | RateLimitError => get_smart_fallback_image prompt
       | BadRequestError => get_smart_fallback_image prompt
       | OtherError _ => get_smart_fallback_image prompt
       end.

End Fallback.

(* ------------------------------------------------------------------ *)
(** ** The ordered keyword table, as the spec describes categorization *)

(** The [(tag, keywordSet)] pairs in the order [categorize_product] tests
    them. *)
Definition keyword_table : list (string * list string) :=
  [("technology", tech_keywords); ("food_beverage", food_keywords);
   ("fashion", fashion_keywords); ("health_wellness", health_keywords);
   ("business", business_keywords)].

(** The tag of the first set with a keyword occurring in [product_lower],
    [default] when none has one. *)
Definition first_match_category (product_lower default : string) : string :=
  match find (fun '(_, kws) => any_keyword_in kws product_lower) keyword_table with
  | Some (tag, _) => tag
  | None => default
  end.

(** [c * n] in Python: a string of [n] copies of the character [c]. *)
Fixpoint string_repeat (n : nat) (c : ascii) : string :=
  match n with
  | O => EmptyString
  | S k => String c (string_repeat k c)
  end.

(** No scripted response is a 200: every provider request fails. *)
Definition no_success (s : St) : Prop :=
  Forall (fun r => match r with Resp c _ => c <> 200 | NetError _ => True end) (net s).

(** How many requests of a log went to one of [urls]. *)
Definition requests_to (urls : list string) (l : list event) : nat :=
  List.length (filter (fun e => match e with
                                | EPost u | EGet u => existsb (String.eqb u) urls
                                | ESleep _ => false
                                end) l).

(* ------------------------------------------------------------------ *)
(** ** Specifications of monadic code *)

(** [m] never raises, and its value satisfies [P], from every state. *)
Definition returns {A} (m : M A) (P : A -> Prop) : Prop :=
  forall s, exists a s', m s = (Ok a, s') /\ P a.

(** Whenever [m] returns normally, its value satisfies [P]. *)
Definition ok_post {A} (m : M A) (P : A -> Prop) : Prop :=
  forall s a s', m s = (Ok a, s') -> P a.

(** [m] only appends to the log, and only events satisfying [E]. *)
Definition log_grows {A} (m : M A) (E : event -> Prop) : Prop :=
  forall s, exists evs, log (snd (m s)) = (log s ++ evs)%list /\ Forall E evs.

(** The four result lists of [generate_product_images], in its key order. *)
Definition slots (t : list string * list string * list string * list string)
  : dict (list string) :=
  let '(l1, l2, l3, l4) := t in
  [("hero_background", l1); ("product_showcase", l2); ("feature_icons", l3);
   ("gallery_items", l4)].

(** Appending [o] to the list that images of type [image_type] go to. *)
Definition bump (image_type : string) (o : list string)
  (t : list string * list string * list string * list string)
  : list string * list string * list string * list string :=
  let '(l1, l2, l3, l4) := t in
  if String.eqb image_type "feature_icon" then (l1, l2, (l3 ++ o)%list, l4)
  else if String.eqb image_type "gallery_item" then (l1, l2, l3, (l4 ++ o)%list)
  else if String.eqb image_type "hero_background" then ((l1 ++ o)%list, l2, l3, l4)
  else (l1, (l2 ++ o)%list, l3, l4).

(* ------------------------------------------------------------------ *)
(** ** [main]: command-line arguments *)

(** [sys.argv] to [(product_name, api_preference)]; [None] is the usage
    message printed when no product name is given. *)
Definition main_args (argv : list string) : option (string * string) :=
  match argv with
  | [] | [_] => None
  | [_; name] => Some (name, "auto")
  | _ :: rest => Some (String.concat " " (removelast rest), last rest "")
  end.

(** The preferences [acquire_image] acts on. *)
Definition known_preferences : list string :=
  ["dalle"; "stability"; "huggingface"; "auto"].

(** [time.sleep(1)] after each of the ten images. *)
Definition tick (s : St) : St :=
  {| net := net s; log := (log s ++ [ESleep 1])%list; clock := clock s + 1 |}.

(* ------------------------------------------------------------------ *)
(** ** [str.strip] *)

(** The ASCII characters for which Python's [str.isspace] holds:
    tab to carriage return, the separators 0x1c-0x1f, and space. *)
Definition is_py_space (c : ascii) : bool :=
  let n := nat_of_ascii c in
  ((9 <=? n) && (n <=? 13))%nat || ((28 <=? n) && (n <=? 32))%nat.

Fixpoint lstrip (s : string) : string :=
  match s with
  | EmptyString => EmptyString
  | String c r => if is_py_space c then lstrip r else s
  end.

Fixpoint rstrip (s : string) : string :=
  match s with
  | EmptyString => EmptyString
  | String c r =>
      let r' := rstrip r in
      if String.eqb r' "" && is_py_space c then EmptyString else String c r'
  end.

Definition strip (s : string) : string := rstrip (lstrip s).

(* ------------------------------------------------------------------ *)
(** ** [gpt_site_generator.clean_dalle_prompt] *)

(** The cleaned subject: the five photography phrases removed (each
    followed by [.strip()]), and "product" if nothing is left. *)
Definition dalle_prompt_core (prompt : string) : string :=
  let prompt := strip (py_replace "professional product photo of" "" prompt) in
  let prompt := strip (py_replace "studio lighting" "" prompt) in
  let prompt := strip (py_replace "commercial photography style" "" prompt) in
  let prompt := strip (py_replace "4K resolution" "" prompt) in
  let prompt := strip (py_replace "marketing image" "" prompt) in
  if String.eqb prompt "" then "product" else prompt.

Definition clean_dalle_prompt (prompt : string) : string :=
  let prompt := dalle_prompt_core prompt in
  let clean_prompt :=
    "A professional product photograph of " ++ prompt
    ++ ", clean white background, studio lighting, high quality" in
  if Nat.ltb 800%nat (String.length clean_prompt)
  then "Professional photo of " ++ prompt ++ ", white background"
  else clean_prompt.

(* ------------------------------------------------------------------ *)
(** ** [EnhancedGPTSiteGenerator.categorize_product] *)

Definition gpt_food_words : list string :=
  ["food"; "coffee"; "restaurant"; "bakery"; "pizza"; "organic";
   "drink"; "beverage"; "recipe"; "meal"; "gourmet"; "artisan";
   "apple"; "fruit"; "vegetable"; "fresh"; "farm"; "beans"; "roast";
   "brew"; "tea"; "wine"; "beer"; "dairy"; "meat"; "seafood"; "spice";
   "sauce"; "soup"; "bread"; "dessert"; "cake"; "cookie"; "chocolate"].
Definition gpt_tech_words : list string :=
  ["smart"; "ai"; "tech"; "digital"; "app"; "software"; "device";
   "phone"; "laptop"; "computer"; "drone"; "robot"; "electronic";
   "gadget"; "virtual"; "augmented"; "machine"; "algorithm"; "data"].
Definition gpt_fashion_words : list string :=
  ["fashion"; "clothing"; "dress"; "shirt"; "shoes"; "bag"; "handbag";
   "jewelry"; "watch"; "style"; "designer"; "luxury"; "saree";
   "pants"; "jacket"; "coat"; "suit"; "tie"; "belt"; "hat"; "scarf"].
Definition gpt_health_words : list string :=
  ["health"; "fitness"; "wellness"; "yoga"; "gym"; "medical";
   "beauty"; "cosmetic"; "care"; "supplement"; "vitamin"; "protein";
   "therapy"; "treatment"; "skincare"; "massage"; "meditation"].
Definition gpt_automotive_words : list string :=
  ["car"; "vehicle"; "automotive"; "bike"; "motorcycle"; "truck";
   "engine"; "wheel"; "tire"; "brake"; "motor"; "racing"].
Definition gpt_sports_words : list string :=
  ["sport"; "game"; "tennis"; "football"; "outdoor"; "recreation";
   "equipment"; "gear"; "basketball"; "soccer"; "golf"; "swimming"].
Definition gpt_home_words : list string :=
  ["home"; "furniture"; "decor"; "appliance"; "tool"; "garden";
   "bedroom"; "living"; "chair"; "table"; "lamp"; "cleaning"].
Definition gpt_business_words : list string :=
  ["business"; "professional"; "office"; "consulting"; "service";
   "marketing"; "finance"; "legal"; "enterprise"; "corporate"].

(** [_fallback_categorization] *)
Definition fallback_categorization (product_name : string) : string :=
  let product_lower := lower product_name in
  if any_keyword_in gpt_food_words product_lower then "food_beverage"
  else if any_keyword_in gpt_tech_words product_lower then "technology"
  else if any_keyword_in gpt_fashion_words product_lower then "fashion"
  else if any_keyword_in gpt_health_words product_lower then "health_wellness"
  else if any_keyword_in gpt_automotive_words product_lower then "automotive"
  else if any_keyword_in gpt_sports_words product_lower then "sports_recreation"
  else if any_keyword_in gpt_home_words product_lower then "home_lifestyle"
  else if any_keyword_in gpt_business_words product_lower then "business_professional"
  else "food_beverage".

(** What the chat-completion request gives back: a first choice with
    this content, no (or an empty) choice, or an exception. *)
Inductive chat_outcome :=
| ChatContent (content : string)
| ChatNoChoice
| ChatError (msg : string).

(** [_call_openai_api]: [has_client] is [hasattr(self, 'client')]. *)
Definition call_openai_api (api_key : string) (has_client : bool)
  (outcome : chat_outcome) : option string :=
  if String.eqb api_key "" then None
  else if negb has_client then None
  else match outcome with
       | ChatContent content =>
           if String.eqb content "" then None else Some (strip content)
       | ChatNoChoice => None
       | ChatError _ => None
       end.

Definition valid_categories : list string :=
  ["technology"; "fashion"; "food_beverage"; "health_wellness";
   "home_lifestyle"; "automotive"; "sports_recreation"; "business_professional"].

Definition gpt_categorize_product (api_key : string) (has_client : bool)
  (outcome : chat_outcome) (product_name : string) : string :=
  if String.eqb api_key "" then fallback_categorization product_name
  else
    let response := call_openai_api api_key has_client outcome in
    if truthy response then
      let category := lower (strip (match response with Some r => r | None => "" end)) in
      if existsb (String.eqb category) valid_categories then category else "technology"
    else fallback_categorization product_name.

(* ------------------------------------------------------------------ *)
(** ** Locators and request sequences *)

(** A file the loop has written: [os.path.join(output_dir, f)] for a
    non-empty file name [f], in a place the file system lets it write. *)
Definition written_file (g : Gen) (p : string) : Prop :=
  exists f, f <> "" /\ p = path_join (output_dir g) f /\ can_write g p = true.

(** A locator of the per-image loop: nothing, or a written file. *)
Definition local_result (g : Gen) (o : option string) : Prop :=
  o = None \/ exists p, o = Some p /\ written_file g p.

Definition loop_image_types : list string :=
  ["hero_background"; "product_showcase"; "feature_icon"; "gallery_item"].

(** What one iteration adds: nothing, or one written file. *)
Definition one_local (g : Gen) (o : list string) : Prop :=
  o = [] \/ exists p, o = [p] /\ written_file g p.

(** Files the loop has written. *)
Definition all_local (g : Gen) (l : list string) : Prop :=
  Forall (written_file g) l.

(** The request sequences of one Hugging Face call: none without a
    token; otherwise the primary model once or, after a 503 and the
    10 second pause, twice; then possibly the simpler model once. *)
Definition hf_patterns : list (list event) :=
  [[];
   [EPost hf_url_primary];
   [EPost hf_url_primary; EPost hf_url_simple];
   [EPost hf_url_primary; ESleep 10; EPost hf_url_primary];
   [EPost hf_url_primary; ESleep 10; EPost hf_url_primary; EPost hf_url_simple]].

(** The answer to the download's GET makes [download_image] return [None]:
    no answer is left, the request fails, the status is not 200, or the
    file cannot be written. *)
Definition download_fails (g : Gen) (filepath : string) (answers : list response) : Prop :=
  match answers with
  | Resp code _ :: _ => code <> 200 \/ can_write g filepath = false
  | NetError _ :: _ => True
  | [] => True
  end.

(* ================================================================== *)
(** * Properties *)

(* ------------------------------------------------------------------ *)
(** ** Rules for [returns], [ok_post] and [log_grows] *)

Lemma returns_ret {A} (a : A) (P : A -> Prop) : P a -> returns (ret a) P.
Proof. intros H s. now exists a, s. Qed.

Lemma returns_bind {A B} (m : M A) (k : A -> M B) P Q :
  returns m P -> (forall a, P a -> returns (k a) Q) -> returns (bind m k) Q.
Proof.
  intros Hm Hk s. destruct (Hm s) as [a [s1 [E Ha]]].
  unfold bind. rewrite E. exact (Hk a Ha s1).
Qed.

Lemma returns_ok_post {A} (m : M A) P : returns m P -> ok_post m P.
Proof.
  intros H s a s' E. destruct (H s) as [a' [s'' [E' Ha]]].
  rewrite E in E'. injection E' as -> _. exact Ha.
Qed.

Lemma ok_post_bind {A B} (m : M A) (k : A -> M B) P Q :
  ok_post m P -> (forall a, P a -> ok_post (k a) Q) -> ok_post (bind m k) Q.
Proof.
  intros Hm Hk s b s' E. unfold bind in E.
  destruct (m s) as [[a|e] s1] eqn:Em; [|discriminate].
  exact (Hk a (Hm s a s1 Em) s1 b s' E).
Qed.

Lemma ok_post_http e : ok_post (http e) (fun _ => True).
Proof. intros s a s' _. exact I. Qed.

Lemma ok_post_raise {A} e (P : A -> Prop) : ok_post (raise e) P.
Proof. intros s a s' E. discriminate E. Qed.

Lemma returns_catch {A} (m : M A) (h : string -> M A) P :
  ok_post m P -> (forall e, returns (h e) P) -> returns (catch m h) P.
Proof.
  intros Hm Hh s. unfold catch.
  destruct (m s) as [[a|e] s1] eqn:Em.
  - exists a, s1. split; [reflexivity|]. exact (Hm s a s1 Em).
  - exact (Hh e s1).
Qed.

Lemma returns_now : returns now (fun _ => True).
Proof. intros s. now eexists _, _. Qed.

Lemma returns_sleep n : returns (sleep n) (fun _ => True).
Proof. intros s. now eexists _, _. Qed.

Lemma returns_lift_ok {A} (a : A) (m : exc A) P : m = Ok a -> P a -> returns (lift m) P.
Proof. intros -> Ha s. now exists a, s. Qed.

Lemma returns_weaken {A} (m : M A) (P Q : A -> Prop) :
  returns m P -> (forall a, P a -> Q a) -> returns m Q.
Proof.
  intros H HPQ s. destruct (H s) as [a [s' [E Ha]]]. exists a, s'. auto.
Qed.

(* ------------------------------------------------------------------ *)
(** ** Which requests each path makes *)

Lemma log_grows_ret {A} (a : A) E : log_grows (ret a) E.
Proof. intros s. exists []. now rewrite app_nil_r. Qed.

Lemma log_grows_raise {A} e E : log_grows (@raise A e) E.
Proof. intros s. exists []. now rewrite app_nil_r. Qed.

Lemma log_grows_now E : log_grows now E.
Proof. intros s. exists []. now rewrite app_nil_r. Qed.

Lemma log_grows_sleep n (E : event -> Prop) : E (ESleep n) -> log_grows (sleep n) E.
Proof. intros He s. exists [ESleep n]. split; [reflexivity|]. now constructor. Qed.

Lemma log_grows_http e (E : event -> Prop) : E e -> log_grows (http e) E.
Proof.
  intros He s. exists [e]. split; [|now constructor].
  unfold http. cbn. destruct (net s) as [|[c b|m] r]; reflexivity.
Qed.

Lemma log_grows_bind {A B} (m : M A) (k : A -> M B) E :
  log_grows m E -> (forall a, log_grows (k a) E) -> log_grows (bind m k) E.
Proof.
  intros Hm Hk s. destruct (Hm s) as [evs1 [L1 F1]]. unfold bind.
  destruct (m s) as [[a|e] s1] eqn:Em; cbn [snd] in L1.
  - destruct (Hk a s1) as [evs2 [L2 F2]]. exists (evs1 ++ evs2)%list.
    rewrite L2, L1, app_assoc. split; [reflexivity|]. now apply Forall_app.
  - now exists evs1.
Qed.

Lemma log_grows_catch {A} (m : M A) (h : string -> M A) E :
  log_grows m E -> (forall e, log_grows (h e) E) -> log_grows (catch m h) E.
Proof.
  intros Hm Hh s. destruct (Hm s) as [evs1 [L1 F1]]. unfold catch.
  destruct (m s) as [[a|e] s1] eqn:Em; cbn [snd] in L1.
  - now exists evs1.
  - destruct (Hh e s1) as [evs2 [L2 F2]]. exists (evs1 ++ evs2)%list.
    rewrite L2, L1, app_assoc. split; [reflexivity|]. now apply Forall_app.
Qed.

Lemma log_grows_weaken {A} (m : M A) (E E' : event -> Prop) :
  log_grows m E -> (forall e, E e -> E' e) -> log_grows m E'.
Proof.
  intros H HE s. destruct (H s) as [evs [L F]]. exists evs.
  split; [exact L|]. eapply Forall_impl; eauto.
Qed.

Ltac log_step :=
  match goal with
  | |- log_grows (catch _ _) _ => apply log_grows_catch; [|intros]
  | |- log_grows (bind _ _) _ => apply log_grows_bind; [|intros]
  | |- log_grows (ret _) _ => apply log_grows_ret
  | |- log_grows (raise _) _ => apply log_grows_raise
  | |- log_grows now _ => apply log_grows_now
  | |- log_grows (sleep _) _ => apply log_grows_sleep
  | |- log_grows (http _) _ => apply log_grows_http
  | |- log_grows (if ?b then _ else _) _ =>
      first [rewrite andb_false_r | destruct b]
  | |- log_grows (let '(_, _) := ?p in _) _ => destruct p
  end.
Ltac log_rules := repeat log_step.


Lemma categorize_product_first_match (name : string) :
  categorize_product name = first_match_category (lower name) "technology".
Proof.
  unfold categorize_product, first_match_category, keyword_table.
  cbn -[any_keyword_in].
  destruct (any_keyword_in tech_keywords (lower name)); [reflexivity|].
  destruct (any_keyword_in food_keywords (lower name)); [reflexivity|].
  destruct (any_keyword_in fashion_keywords (lower name)); [reflexivity|].
  destruct (any_keyword_in health_keywords (lower name)); [reflexivity|].
  destruct (any_keyword_in business_keywords (lower name)); reflexivity.
Qed.

(** [find] returns the element at the first index satisfying the test. *)
Lemma find_first_index {A} (f : A -> bool) (l : list A) (j : nat) (x : A) :
  nth_error l j = Some x -> f x = true ->
  (forall m y, (m < j)%nat -> nth_error l m = Some y -> f y = false) ->
  find f l = Some x.
Proof.
  revert j; induction l as [|a l IH]; intros j Hj Hx Hbefore.
  - destruct j; discriminate.
  - destruct j as [|j]; simpl in Hj |- *.
    + injection Hj as <-. now rewrite Hx.
    + rewrite (Hbefore O a ltac:(lia) eq_refl).
      apply (IH j Hj Hx).
      intros m y Hm Hy. apply (Hbefore (S m) y ltac:(lia) Hy).
Qed.

Lemma find_none_all {A} (f : A -> bool) (l : list A) :
  (forall x, In x l -> f x = false) -> find f l = None.
Proof.
  induction l as [|a l IH]; intros H; simpl; [reflexivity|].
  rewrite (H a (or_introl eq_refl)). apply IH. intros x Hx. apply H. now right.
Qed.

(** C2 (as the code has it).  A name none of whose keyword sets has a
    keyword occurring in its lower-cased form is categorized
    [technology]; otherwise the tag of the first keyword set, in the fixed
    order, that has a matching keyword is returned. *)
Theorem categorize_product_default_technology :
  forall name : string,
    ((forall tag kws, In (tag, kws) keyword_table ->
                      any_keyword_in kws (lower name) = false) ->
     categorize_product name = "technology") /\
    (forall j tag kws,
       nth_error keyword_table j = Some (tag, kws) ->
       any_keyword_in kws (lower name) = true ->
       (forall m tag' kws', (m < j)%nat -> nth_error keyword_table m = Some (tag', kws') ->
                            any_keyword_in kws' (lower name) = false) ->
       categorize_product name = tag).
Proof.
  intros name; split.
  - intros Hnone. rewrite categorize_product_first_match.
    unfold first_match_category. rewrite find_none_all; [reflexivity|].
    intros [tag kws] Hin. exact (Hnone tag kws Hin).
  - intros j tag kws Hj Hmatch Hbefore.
    rewrite categorize_product_first_match. unfold first_match_category.
    rewrite (find_first_index _ _ j (tag, kws) Hj Hmatch); [reflexivity|].
    intros m [tag' kws'] Hm Hy. exact (Hbefore m tag' kws' Hm Hy).
Qed.

(** C2 fails as stated: a name with no keyword is categorized
    [technology], not [general]. *)
Lemma categorize_product_no_general :
  (forall tag kws, In (tag, kws) keyword_table ->
                   any_keyword_in kws (lower "zen rock") = false) /\
  categorize_product "zen rock" = "technology" /\
  categorize_product "zen rock" <> "general".
Proof.
  split; [|split; [reflexivity | discriminate]].
  intros tag kws Hin. simpl in Hin.
  repeat (destruct Hin as [Hin | Hin]; [injection Hin as <- <-; reflexivity|]).
  contradiction.
Qed.

Lemma categorize_product_default_technology_witness :
  categorize_product "zen rock" = "technology" /\
  categorize_product "Smart Coffee Maker" = "technology".
Proof.
  split.
  - apply (proj1 (categorize_product_default_technology "zen rock")).
    intros tag kws Hin. simpl in Hin.
    repeat (destruct Hin as [Hin | Hin]; [injection Hin as <- <-; reflexivity|]).
    contradiction.
  - apply (proj2 (categorize_product_default_technology "Smart Coffee Maker")
             O "technology" tech_keywords); [reflexivity | reflexivity |].
    intros m tag' kws' Hm. lia.
Defined.

(** C8.  When the lower-cased name has keywords of exactly two keyword
    sets, [categorize_product] returns the tag of the set tested earlier;
    in particular ["smart coffee maker"] is [technology] although it also
    contains the food keyword ["coffee"]. *)
Theorem categorize_product_earlier_set_wins :
  (forall name j k tj kj tk kk,
     (j < k)%nat ->
     nth_error keyword_table j = Some (tj, kj) ->
     nth_error keyword_table k = Some (tk, kk) ->
     any_keyword_in kj (lower name) = true ->
     any_keyword_in kk (lower name) = true ->
     (forall m t kw, nth_error keyword_table m = Some (t, kw) ->
                     any_keyword_in kw (lower name) = true -> m = j \/ m = k) ->
     categorize_product name = tj) /\
  categorize_product "smart coffee maker" = "technology".
Proof.
  split; [|reflexivity].
  intros name j k tj kj tk kk Hjk Hj Hk Hmj Hmk Honly.
  rewrite categorize_product_first_match. unfold first_match_category.
  rewrite (find_first_index _ _ j (tj, kj) Hj Hmj); [reflexivity|].
  intros m [t kw] Hm Hy. simpl.
  destruct (any_keyword_in kw (lower name)) eqn:E; [|reflexivity].
  destruct (Honly m t kw Hy E); lia.
Qed.

Lemma categorize_product_earlier_set_wins_witness :
  any_keyword_in tech_keywords (lower "smart coffee maker") = true /\
  any_keyword_in food_keywords (lower "smart coffee maker") = true /\
  categorize_product "smart coffee maker" = "technology".
Proof.
  split; [reflexivity|]. split; [reflexivity|].
  apply (proj1 categorize_product_earlier_set_wins "smart coffee maker"
           O 1%nat "technology" tech_keywords "food_beverage" food_keywords);
    try reflexivity; [lia|].
  intros m t kw Hm Hmatch.
  destruct m as [|[|[|[|[|m]]]]]; simpl in Hm;
    try (injection Hm as <- <-; discriminate Hmatch);
    try (left; reflexivity); try (right; reflexivity).
  destruct m; discriminate Hm.
Defined.

(* ------------------------------------------------------------------ *)
(** ** Prompt synthesis *)

Lemma dict_get_in {V} (d : dict V) k (dflt : V) :
  dict_get d k dflt = dflt \/ In (dict_get d k dflt) (map snd d).
Proof.
  unfold dict_get. induction d as [|[k' v] d IH]; simpl; [now left|].
  destruct (String.eqb k k'); [now right; left|].
  destruct IH as [IH|IH]; [now left | now right; right].
Qed.

(** Every category string selects one of the five themes of the table. *)
Lemma theme_data_of_cases (theme_name : string) :
  exists td, theme_data_of theme_name = Ok td /\ In td (map snd themes).
Proof.
  unfold theme_data_of. cbn [dict_getitem dict_lookup themes String.eqb exc_bind].
  eexists; split; [reflexivity|].
  match goal with |- In (dict_get ?d ?k ?dflt) _ =>
    destruct (dict_get_in d k dflt) as [->|H]; [simpl; now left | exact H] end.
Qed.

Lemma all_themes_length5 td :
  In td (map snd themes) ->
  List.length (styles td) = 5%nat /\ List.length (environments td) = 5%nat /\
  List.length (lighting td) = 5%nat.
Proof.
  simpl; intros H; repeat (destruct H as [<-|H]; [now repeat split|]); contradiction.
Qed.

Lemma py_index_in_range {A} (l : list A) (i : Z) :
  0 <= i < Z.of_nat (List.length l) -> exists x, py_index l i = Ok x.
Proof.
  intros Hi. unfold py_index.
  replace (i <? 0) with false by (symmetry; apply Z.ltb_ge; lia).
  replace ((0 <=? i) && (i <? Z.of_nat (List.length l)))%bool with true
    by (symmetry; apply andb_true_intro; split; [apply Z.leb_le | apply Z.ltb_lt]; lia).
  destruct (nth_error l (Z.to_nat i)) eqn:E; [now eexists|].
  apply nth_error_None in E. lia.
Qed.

Lemma py_mod_index_ok {A} (l : list A) (v : Z) :
  l <> [] -> exists i x, py_mod v (Z.of_nat (List.length l)) = Ok i /\ py_index l i = Ok x.
Proof.
  intros Hl. destruct l as [|a l]; [contradiction|].
  unfold py_mod. set (n := Z.of_nat (List.length (a :: l))).
  assert (Hn : 0 < n) by (unfold n; simpl; lia).
  replace (n =? 0) with false by (symmetry; apply Z.eqb_neq; lia).
  destruct (py_index_in_range (a :: l) (v mod n)) as [x Hx];
    [apply Z.mod_pos_bound; exact Hn|].
  now exists (v mod n), x.
Qed.

Lemma select_variation_ok td v :
  styles td <> [] -> environments td <> [] -> lighting td <> [] ->
  exists sel, select_variation td v = Ok sel.
Proof.
  intros Hs He Hl. unfold select_variation.
  destruct (py_mod_index_ok _ v Hs) as [i [s [H1 H2]]].
  rewrite H1; cbn [exc_bind]; rewrite H2; cbn [exc_bind].
  destruct (py_mod_index_ok _ v He) as [j [e [H3 H4]]].
  rewrite H3; cbn [exc_bind]; rewrite H4; cbn [exc_bind].
  destruct (py_mod_index_ok _ v Hl) as [k [x [H5 H6]]].
  rewrite H5; cbn [exc_bind]; rewrite H6; cbn [exc_bind].
  now eexists.
Qed.

Lemma select_variation_mod5 td v :
  In td (map snd themes) -> select_variation td v = select_variation td (v mod 5).
Proof.
  intros Hin. destruct (all_themes_length5 td Hin) as [Hs [He Hl]].
  unfold select_variation, py_mod. rewrite Hs, He, Hl. cbn [Z.of_nat Pos.of_succ_nat Pos.succ].
  rewrite Z.mod_mod by lia. reflexivity.
Qed.

Lemma generate_prompt_mod5 name t th v :
  generate_prompt name t th v = generate_prompt name t th (v mod 5).
Proof.
  destruct (theme_data_of_cases th) as [td [Htd Hin]].
  unfold generate_prompt. rewrite Htd. cbn [exc_bind].
  rewrite (select_variation_mod5 td v Hin). reflexivity.
Qed.

Lemma image_config_of_ok t : exists cfg, image_config_of t = Ok cfg.
Proof. unfold image_config_of. cbn [dict_getitem dict_lookup image_types String.eqb exc_bind]. now eexists. Qed.

Lemma length_append (a b : string) :
  String.length (a ++ b) = (String.length a + String.length b)%nat.
Proof. induction a as [|c a IH]; simpl; [reflexivity | now rewrite IH]. Qed.

(** The number of characters [generate_prompt] adds around the name. *)
Definition prompt_overhead (image_type theme_name : string) (variation : Z) : nat :=
  match generate_prompt "" image_type theme_name variation with
  | Ok p => String.length p
  | Raise _ => 0
  end.

Lemma generate_prompt_length name t th v p :
  generate_prompt name t th v = Ok p ->
  String.length p = (String.length name + prompt_overhead t th v)%nat.
Proof.
  unfold prompt_overhead, generate_prompt.
  destruct (theme_data_of th) as [td|]; cbn [exc_bind]; [|discriminate].
  destruct (image_config_of t) as [cfg|]; cbn [exc_bind]; [|discriminate].
  destruct (select_variation td v) as [[[s e] l]|]; cbn [exc_bind]; [|discriminate].
  intros H; injection H as <-.
  destruct (String.eqb t "hero_background"); [|destruct (String.eqb t "product_showcase");
    [|destruct (String.eqb t "feature_icon")]];
  repeat (rewrite length_append || cbn [String.length]); lia.
Qed.

Ltac slot_cases t :=
  destruct (String.eqb t "hero_background") eqn:E1;
  [apply String.eqb_eq in E1; subst t|
   destruct (String.eqb t "product_showcase") eqn:E2;
   [apply String.eqb_eq in E2; subst t|
    destruct (String.eqb t "feature_icon") eqn:E3;
    [apply String.eqb_eq in E3; subst t|
     destruct (String.eqb t "gallery_item") eqn:E4;
     [apply String.eqb_eq in E4; subst t|]]]].

Lemma image_config_of_unknown t :
  String.eqb t "hero_background" = false -> String.eqb t "product_showcase" = false ->
  String.eqb t "feature_icon" = false -> String.eqb t "gallery_item" = false ->
  image_config_of t = image_config_of "product_showcase".
Proof.
  intros E1 E2 E3 E4. unfold image_config_of, dict_get.
  cbn [dict_getitem dict_lookup image_types exc_bind]. now rewrite E1, E2, E3, E4.
Qed.

Lemma prompt_overhead_le t th v : (prompt_overhead t th v <= 290)%nat.
Proof.
  unfold prompt_overhead. rewrite generate_prompt_mod5.
  assert (Hm : 0 <= v mod 5 < 5) by (apply Z.mod_pos_bound; lia).
  set (m := v mod 5) in *. clearbody m.
  destruct (theme_data_of_cases th) as [td [Htd Hin]].
  unfold generate_prompt. rewrite Htd. cbn [exc_bind].
  assert (Hm' : m = 0 \/ m = 1 \/ m = 2 \/ m = 3 \/ m = 4) by lia.
  simpl in Hin.
  slot_cases t;
    try rewrite (image_config_of_unknown t E1 E2 E3 E4);
    repeat (destruct Hin as [<-|Hin]); try contradiction;
    destruct Hm' as [-> | [-> | [-> | [-> | ->]]]];
    apply Nat.leb_le; vm_compute; reflexivity.
Qed.

Lemma generate_prompt_ok name t th v : exists p, generate_prompt name t th v = Ok p.
Proof.
  destruct (theme_data_of_cases th) as [td [Htd Hin]].
  destruct (image_config_of_ok t) as [cfg Hcfg].
  pose proof (all_themes_length5 td Hin) as [Hs [He Hl]].
  destruct (select_variation_ok td v) as [[[s e] l] Hsel];
    try (intros H; rewrite H in *; discriminate).
  unfold generate_prompt. rewrite Htd, Hcfg. cbn [exc_bind]. rewrite Hsel. cbn [exc_bind].
  now eexists.
Qed.

(** C6 (as the code has it).  [generate_prompt] does not truncate: the
    prompt is the product name plus a fixed overhead of at most 290
    characters, so it stays within 800 characters whenever the name has at
    most 510 characters. *)
Theorem generate_prompt_length_bound :
  forall name image_type theme_name variation,
    exists p, generate_prompt name image_type theme_name variation = Ok p /\
      String.length p = (String.length name + prompt_overhead image_type theme_name variation)%nat /\
      (prompt_overhead image_type theme_name variation <= 290)%nat /\
      ((String.length name <= 510)%nat -> (String.length p <= 800)%nat).
Proof.
  intros name t th v.
  destruct (generate_prompt_ok name t th v) as [p Hp].
  pose proof (generate_prompt_length name t th v p Hp) as Hlen.
  pose proof (prompt_overhead_le t th v) as Hle.
  exists p. repeat split; try assumption. intros Hn. lia.
Qed.

Lemma generate_prompt_length_bound_witness :
  exists p, generate_prompt "Artisan Coffee Roaster" "gallery_item" "food_beverage" 1 = Ok p /\
            (String.length p <= 800)%nat.
Proof.
  destruct (generate_prompt_length_bound "Artisan Coffee Roaster" "gallery_item"
              "food_beverage" 1) as [p [Hp [_ [_ Hb]]]].
  exists p. split; [exact Hp|]. apply Hb. simpl. lia.
Defined.

(** C6 fails as stated: an 800-character product name gives a prompt
    longer than 800 characters. *)
Lemma generate_prompt_exceeds_800 :
  exists p, generate_prompt (string_repeat 800 "a"%char) "product_showcase" "technology" 0 = Ok p /\
            (String.length p > 800)%nat.
Proof.
  eexists; split; [vm_compute; reflexivity|]. apply Nat.ltb_lt. vm_compute. reflexivity.
Qed.

(** C7.  For every category and every [i] in [[0, 2N)], [N] the length of
    the category's style array, the (style, environment, lighting) triple
    that [generate_prompt] selects at variation [i] equals the one at
    [i + N]. *)
Theorem select_variation_cycles :
  forall theme_name td i,
    theme_data_of theme_name = Ok td ->
    0 <= i < 2 * Z.of_nat (List.length (styles td)) ->
    select_variation td i = select_variation td (i + Z.of_nat (List.length (styles td))).
Proof.
  intros th td i Htd _.
  destruct (theme_data_of_cases th) as [td' [Htd' Hin]].
  rewrite Htd in Htd'. injection Htd' as <-.
  destruct (all_themes_length5 td Hin) as [Hs _]. rewrite Hs.
  rewrite (select_variation_mod5 td i Hin), (select_variation_mod5 td (i + _) Hin).
  change (Z.of_nat 5) with 5.
  replace (i + 5) with (i + 1 * 5) by ring. rewrite Z_mod_plus_full. reflexivity.
Qed.

Lemma select_variation_cycles_witness :
  exists td, theme_data_of "fashion" = Ok td /\
             select_variation td 3 = select_variation td 8.
Proof.
  destruct (theme_data_of_cases "fashion") as [td [Htd _]].
  exists td. split; [exact Htd|].
  assert (Hn : Z.of_nat (List.length (styles td)) = 5).
  { pose proof Htd as H. unfold theme_data_of in H. vm_compute in H.
    injection H as <-. reflexivity. }
  pose proof (select_variation_cycles "fashion" td 3 Htd) as H.
  rewrite Hn in H. apply H. lia.
Defined.

(** C10.  [generate_prompt] is total: on every input it returns a
    non-empty prompt, an unknown category falling back to the technology
    theme and an unknown slot type to the [product_showcase]
    configuration. *)
Theorem generate_prompt_total_defaults :
  forall name image_type theme_name variation,
    (exists p, generate_prompt name image_type theme_name variation = Ok p /\ p <> "") /\
    (dict_lookup themes theme_name = None ->
     theme_data_of theme_name = dict_getitem themes "technology") /\
    (dict_lookup image_types image_type = None ->
     image_config_of image_type = dict_getitem image_types "product_showcase").
Proof.
  intros name t th v. split; [|split].
  - destruct (theme_data_of_cases th) as [td [Htd Hin]].
    destruct (image_config_of_ok t) as [cfg Hcfg].
    pose proof (all_themes_length5 td Hin) as [Hs [He Hl]].
    destruct (select_variation_ok td v) as [[[s e] l] Hsel];
      try (intros H; rewrite H in *; discriminate).
    unfold generate_prompt. rewrite Htd, Hcfg. cbn [exc_bind]. rewrite Hsel. cbn [exc_bind].
    eexists; split; [reflexivity|].
    intros H. apply (f_equal String.length) in H.
    rewrite length_append in H. cbn [String.length quality_suffix] in H. lia.
  - intros H. unfold theme_data_of, dict_get. rewrite H. reflexivity.
  - intros H. unfold image_config_of, dict_get. rewrite H. reflexivity.
Qed.

Lemma generate_prompt_total_defaults_witness :
  theme_data_of "gardening" = dict_getitem themes "technology" /\
  image_config_of "banner" = dict_getitem image_types "product_showcase".
Proof.
  destruct (generate_prompt_total_defaults "Rake" "banner" "gardening" 0) as [_ [H1 H2]].
  split; [apply H1 | apply H2]; reflexivity.
Defined.

(* ------------------------------------------------------------------ *)
(** ** The deterministic fallback resolver *)

Lemma py_mod_index_in {A} (l : list A) (h : Z) :
  l <> [] -> exists i x, py_mod h (Z.of_nat (List.length l)) = Ok i /\
                         py_index l i = Ok x /\ In x l.
Proof.
  intros Hl. destruct (py_mod_index_ok l h Hl) as [i [x [Hi Hx]]].
  exists i, x. repeat split; try assumption.
  unfold py_index in Hx.
  destruct (_ && _)%bool; [|discriminate].
  destruct (nth_error l _) eqn:E; [|discriminate].
  injection Hx as <-. eapply nth_error_In; exact E.
Qed.

(** The resolver's answer: a URL of the matched domain's list, or the
    single default when no domain matches. *)
Lemma get_smart_fallback_image_spec (py_hash : string -> Z) (prompt : string) :
  exists u, get_smart_fallback_image py_hash prompt = Ok u /\
    match fallback_domain prompt with
    | Some d => In u (domain_images d)
    | None => u = default_image
    end.
Proof.
  unfold get_smart_fallback_image, fallback_domain.
  destruct (any_keyword_in fb_tech_words (lower prompt));
  [|destruct (any_keyword_in fb_fashion_words (lower prompt));
  [|destruct (any_keyword_in fb_food_words (lower prompt));
  [|destruct (any_keyword_in fb_health_words (lower prompt))]]];
  try (now exists default_image);
  match goal with
  | |- exists u, exc_bind (py_mod _ (Z.of_nat (List.length ?l))) _ = _ /\ _ =>
      destruct (py_mod_index_in l (py_hash prompt) ltac:(discriminate)) as [i [x [Hi [Hx Hin]]]];
      rewrite Hi; cbn [exc_bind]; rewrite Hx; now exists x
  end.
Qed.

Lemma domain_images_disjoint d d' u :
  d <> d' -> In u (domain_images d) -> ~ In u (domain_images d').
Proof.
  intros Hdd Hu Hu'.
  destruct d, d'; try contradiction; simpl in Hu, Hu';
  repeat (destruct Hu as [<-|Hu]); try contradiction;
  repeat (destruct Hu' as [Hu'|Hu']; [discriminate Hu'|]); contradiction.
Qed.

Lemma fallback_known_set_spec (py_hash : string -> Z) (prompt : string) :
  exists u, get_smart_fallback_image py_hash prompt = Ok u /\
            u <> "" /\ In u fallback_known_set.
Proof.
  destruct (get_smart_fallback_image_spec py_hash prompt) as [u [Hu Hd]].
  exists u. split; [exact Hu|].
  unfold fallback_known_set.
  destruct (fallback_domain prompt) as [[]|]; simpl in Hd;
    [..|subst u; split; [discriminate | rewrite !in_app_iff; simpl; tauto]];
    (repeat (destruct Hd as [<-|Hd]); [..|contradiction]);
    (split; [discriminate | rewrite !in_app_iff; simpl; tauto]).
Qed.

(** C5.  [get_smart_fallback_image] is a function of the prompt text (for
    a fixed [hash], i.e. within one interpreter process): the same prompt
    gives the same URL; and two prompts classified into the same keyword
    domain both get URLs of that domain's list, which belong to no other
    domain's list. *)
Theorem get_smart_fallback_image_domain_stable :
  forall (py_hash : string -> Z) (p1 p2 : string) (d : domain),
    get_smart_fallback_image py_hash p1 = get_smart_fallback_image py_hash p1 /\
    (fallback_domain p1 = Some d -> fallback_domain p2 = Some d ->
     exists u1 u2,
       get_smart_fallback_image py_hash p1 = Ok u1 /\
       get_smart_fallback_image py_hash p2 = Ok u2 /\
       In u1 (domain_images d) /\ In u2 (domain_images d) /\
       (forall d', d' <> d -> ~ In u1 (domain_images d') /\ ~ In u2 (domain_images d'))).
Proof.
  intros h p1 p2 d. split; [reflexivity|].
  intros H1 H2.
  destruct (get_smart_fallback_image_spec h p1) as [u1 [Hu1 Hd1]].
  destruct (get_smart_fallback_image_spec h p2) as [u2 [Hu2 Hd2]].
  rewrite H1 in Hd1. rewrite H2 in Hd2.
  exists u1, u2. repeat split; try assumption;
    apply (domain_images_disjoint d); auto.
Qed.

Lemma get_smart_fallback_image_domain_stable_witness :
  exists u1 u2,
    get_smart_fallback_image (fun p => Z.of_nat (String.length p)) "fresh coffee beans" = Ok u1 /\
    get_smart_fallback_image (fun p => Z.of_nat (String.length p)) "kitchen knife set" = Ok u2 /\
    In u1 food_images /\ In u2 food_images.
Proof.
  destruct (proj2 (get_smart_fallback_image_domain_stable
                     (fun p => Z.of_nat (String.length p))
                     "fresh coffee beans" "kitchen knife set" DFood)
              eq_refl eq_refl) as [u1 [u2 [H1 [H2 [I1 [I2 _]]]]]].
  exists u1, u2. repeat split; assumption.
Defined.

(* ------------------------------------------------------------------ *)
(** ** The Hugging Face adapter on a busy model *)

(** C3 (as the code has it).  When the primary model answers 503 twice,
    [generate_with_huggingface] sleeps 10 s between the two requests to it
    and then sends one more request, to a simpler fallback model: three
    requests in all, two of them to the primary model; whatever the third
    answer, it makes no further request. *)
Theorem huggingface_busy_twice :
  forall g prompt s b1 b2 r3 rest,
    huggingface_token g <> "" ->
    net s = Resp 503 b1 :: Resp 503 b2 :: r3 :: rest ->
    let s' := snd (generate_with_huggingface g prompt s) in
    log s' = (log s ++ [EPost hf_url_primary; ESleep 10; EPost hf_url_primary;
                        EPost hf_url_simple])%list /\
    net s' = rest /\
    requests_to [hf_url_primary] (log s') = (requests_to [hf_url_primary] (log s) + 2)%nat /\
    requests_to [hf_url_primary; hf_url_simple] (log s') =
      (requests_to [hf_url_primary; hf_url_simple] (log s) + 3)%nat.
Proof.
  intros g prompt [n l c] b1 b2 r3 rest Htok Hnet; cbn [net] in Hnet; subst n.
  apply String.eqb_neq in Htok.
  assert (Hlog : log (snd (generate_with_huggingface g prompt
                   {| net := Resp 503 b1 :: Resp 503 b2 :: r3 :: rest; log := l; clock := c |}))
                 = (l ++ [EPost hf_url_primary; ESleep 10; EPost hf_url_primary; EPost hf_url_simple])%list
              /\ net (snd (generate_with_huggingface g prompt
                   {| net := Resp 503 b1 :: Resp 503 b2 :: r3 :: rest; log := l; clock := c |}))
                 = rest).
  { unfold generate_with_huggingface. rewrite Htok.
    unfold catch, bind, ret, raise, sleep, http_post, http, record_event.
    destruct r3 as [c3 t3|m3]; cbn;
      [destruct (c3 =? 200); cbn|]; rewrite <- !app_assoc; split; reflexivity. }
  destruct Hlog as [Hlog Hn]. cbn zeta. rewrite Hlog, Hn.
  unfold requests_to. rewrite !filter_app, !length_app. cbn. repeat split; lia.
Qed.

Lemma huggingface_busy_twice_witness :
  log (snd (generate_with_huggingface
              {| output_dir := "generated_images"; openai_api_key := "";
                 stability_api_key := ""; huggingface_token := "hf_token"; can_write := fun _ => true; stability_decodes := fun _ => true |}
              "p" {| net := [Resp 503 "loading"; Resp 503 "loading"; Resp 500 "error"];
                     log := []; clock := 0 |}))
  = [EPost hf_url_primary; ESleep 10; EPost hf_url_primary; EPost hf_url_simple].
Proof.
  exact (proj1 (huggingface_busy_twice
    {| output_dir := "generated_images"; openai_api_key := "";
       stability_api_key := ""; huggingface_token := "hf_token"; can_write := fun _ => true; stability_decodes := fun _ => true |}
    "p" {| net := [Resp 503 "loading"; Resp 503 "loading"; Resp 500 "error"];
           log := []; clock := 0 |} "loading" "loading" (Resp 500 "error") []
    ltac:(discriminate) eq_refl)).
Defined.

(** C3 fails as stated: after two 503 answers the adapter is called a
    third time (on the simpler model) before the loop moves on. *)
Lemma huggingface_three_requests :
  requests_to [hf_url_primary; hf_url_simple]
    (log (snd (generate_with_huggingface
                 {| output_dir := "generated_images"; openai_api_key := "";
                    stability_api_key := ""; huggingface_token := "hf_token"; can_write := fun _ => true; stability_decodes := fun _ => true |}
                 "p" {| net := [Resp 503 "loading"; Resp 503 "loading"; Resp 500 "error"];
                        log := []; clock := 0 |}))) = 3%nat.
Proof. vm_compute. reflexivity. Qed.

(* ------------------------------------------------------------------ *)
(** ** The per-image provider loop *)

Lemma append_nonempty_r (a b : string) : b <> "" -> a ++ b <> "".
Proof. intros Hb. induction a as [|c a IH]; [exact Hb | discriminate]. Qed.

Lemma path_join_nonempty a b : b <> "" -> String.eqb (path_join a b) "" = false.
Proof.
  intros Hb. apply String.eqb_neq. unfold path_join.
  destruct (String.prefix "/" b); [exact Hb|].
  destruct (_ || _)%bool; apply append_nonempty_r; [exact Hb|].
  discriminate.
Qed.

Lemma dalle_filename_nonempty name it i t : dalle_filename name it i t <> "".
Proof. unfold dalle_filename. apply append_nonempty_r. discriminate. Qed.

Lemma stability_one_request g prompt sz s :
  stability_api_key g <> "" ->
  log (snd (generate_with_stability_ai g prompt sz s)) = (log s ++ [EPost stability_url])%list.
Proof.
  intros Hk. apply String.eqb_neq in Hk. unfold generate_with_stability_ai. rewrite Hk.
  unfold catch, bind, ret, raise, now, http_post, http, record_event.
  cbn [net log clock].
  destruct (net s) as [|[c b|m] r]; cbn [snd log]; try reflexivity.
  destruct (c =? 200); [|reflexivity].
  destruct (stability_decodes g b); [|reflexivity].
  destruct (can_write g _); reflexivity.
Qed.

(** C4 (as the code has it).  Under [auto], when DALL-E answers with a
    non-empty URL: if the download of that URL succeeds (its GET answers
    200 and the file is written), Stability AI and Hugging Face get no
    request for that image (the log gains exactly the DALL-E request and
    the download), and the locator recorded is the path of the written
    local file, not DALL-E's URL; if the download fails (see
    [download_fails]) and a Stability AI key is set, the next request is
    the one to Stability AI. *)
Theorem acquire_dalle_success_short_circuit :
  forall g product_name image_type i prompt sz s url rest,
    openai_api_key g <> "" -> url <> "" ->
    net s = Resp 200 url :: rest ->
    let filepath :=
      path_join (output_dir g) (dalle_filename product_name image_type i (clock s)) in
    (forall body rest', rest = Resp 200 body :: rest' -> can_write g filepath = true ->
       acquire_image g "auto" product_name image_type i prompt sz s =
         (Ok (Some filepath),
          {| net := rest'; log := (log s ++ [EPost dalle_url; EGet url])%list;
             clock := clock s |})) /\
    (download_fails g filepath rest -> stability_api_key g <> "" ->
       exists evs,
         log (snd (acquire_image g "auto" product_name image_type i prompt sz s)) =
         (log s ++ [EPost dalle_url; EGet url; EPost stability_url] ++ evs)%list).
Proof.
  intros g name it i prompt sz s url rest Hok Hurl Hnet filepath.
  apply String.eqb_neq in Hok. apply String.eqb_neq in Hurl.
  assert (Hdalle : forall (k : option string -> M (option string)),
    bind (generate_with_openai_dalle g prompt sz) k s =
    k (Some url) {| net := rest; log := (log s ++ [EPost dalle_url])%list; clock := clock s |}).
  { intros k. unfold generate_with_openai_dalle. rewrite Hok.
    unfold catch, bind, ret, http_post, http, record_event. cbn [net log clock].
    rewrite Hnet. reflexivity. }
  split.
  - intros body rest' -> Hw.
    unfold acquire_image. cbn [String.eqb Ascii.eqb Bool.eqb orb andb].
    unfold bind at 1. rewrite Hdalle. cbn [truthy]. rewrite Hurl. cbn [negb].
    unfold bind at 1, now at 1.
    unfold download_image, catch, bind, ret, raise, http_get, http, record_event.
    cbn [net log clock]. cbn [Z.eqb Pos.eqb]. subst filepath. rewrite Hw.
    assert (Hne : String.eqb (path_join (output_dir g) (dalle_filename name it i (clock s))) ""
                  = false) by (apply path_join_nonempty, dalle_filename_nonempty).
    repeat (cbn -[path_join dalle_filename show_Z String.append]; rewrite Hne).
    cbn -[path_join dalle_filename show_Z String.append].
    rewrite <- app_assoc. reflexivity.
  - intros Hfail Hsk.
    unfold acquire_image.
    match goal with |- context [bind ?A ?k s] =>
      assert (HA : exists s2, A s = (Ok None, s2) /\
                              log s2 = (log s ++ [EPost dalle_url; EGet url])%list) end.
    { cbn [String.eqb Ascii.eqb Bool.eqb orb]. rewrite Hdalle. cbn [truthy].
      rewrite Hurl. cbn [negb].
      unfold bind at 1, now at 1.
      unfold download_image, catch, bind, ret, raise, http_get, http, record_event.
      cbn [net log clock].
      destruct rest as [|[c b|m] r]; cbn [download_fails] in Hfail.
      - eexists. split; [reflexivity|]. cbn. now rewrite <- app_assoc.
      - destruct (c =? 200) eqn:Ec.
        + apply Z.eqb_eq in Ec. subst c. destruct Hfail as [Hc | Hw]; [congruence|].
          subst filepath. rewrite Hw.
          eexists. split; [reflexivity|]. cbn. now rewrite <- app_assoc.
        + eexists. split; [reflexivity|]. cbn. now rewrite <- app_assoc.
      - eexists. split; [reflexivity|]. cbn. now rewrite <- app_assoc. }
    destruct HA as [s2 [HA Hl2]].
    unfold bind at 1. rewrite HA.
    cbn [truthy negb String.eqb Ascii.eqb Bool.eqb orb andb].
    unfold bind at 1.
    pose proof (stability_one_request g prompt sz s2 Hsk) as Hst.
    destruct (generate_with_stability_ai g prompt sz s2) as [r3 s3] eqn:E3.
    cbn [snd] in Hst.
    destruct r3 as [ip|e].
    + match goal with |- context [snd (?m s3)] =>
        assert (HL : log_grows m (fun _ => True)) end.
      { unfold generate_with_huggingface, http_post. cbv beta zeta. log_rules; auto. }
      destruct (HL s3) as [evs [Hl _]]. exists evs.
      rewrite Hl, Hst, Hl2. rewrite <- !app_assoc. reflexivity.
    + exists []. cbn [snd]. rewrite Hst, Hl2. now rewrite <- !app_assoc.
Qed.

Lemma acquire_dalle_success_short_circuit_witness :
  exists filepath,
    acquire_image {| output_dir := "generated_images"; openai_api_key := "sk-test";
                     stability_api_key := "sk-test"; huggingface_token := "hf_token";
                     can_write := fun _ => true; stability_decodes := fun _ => true |}
      "auto" "Smart Lamp" "hero_background" 0 "p" "1920x1080"
      {| net := [Resp 200 "https://img.example/a.png"; Resp 200 "png-bytes"];
         log := []; clock := 1700000000 |} =
    (Ok (Some filepath),
     {| net := []; log := [EPost dalle_url; EGet "https://img.example/a.png"];
        clock := 1700000000 |}).
Proof.
  eexists.
  refine (proj1 (acquire_dalle_success_short_circuit
    {| output_dir := "generated_images"; openai_api_key := "sk-test";
       stability_api_key := "sk-test"; huggingface_token := "hf_token";
       can_write := fun _ => true; stability_decodes := fun _ => true |}
    "Smart Lamp" "hero_background" 0 "p" "1920x1080"
    {| net := [Resp 200 "https://img.example/a.png"; Resp 200 "png-bytes"];
       log := []; clock := 1700000000 |}
    "https://img.example/a.png" [Resp 200 "png-bytes"] ltac:(discriminate) ltac:(discriminate)
    eq_refl) "png-bytes" [] eq_refl eq_refl).
Defined.

(** C4 fails as stated: DALL-E succeeds but the download of its URL
    fails, so Stability AI is invoked and its local file, not DALL-E's
    URL, is the locator. *)
Lemma acquire_dalle_success_download_fails :
  let r := acquire_image
             {| output_dir := "generated_images"; openai_api_key := "sk-test";
                stability_api_key := "sk-test"; huggingface_token := "hf_token"; can_write := fun _ => true; stability_decodes := fun _ => true |}
             "auto" "Smart Lamp" "hero_background" 0 "p" "1920x1080"
             {| net := [Resp 200 "https://img.example/a.png"; Resp 404 "not found";
                        Resp 200 "artifact"];
                log := []; clock := 1700000000 |} in
  In (EPost stability_url) (log (snd r)) /\
  fst r = Ok (Some "generated_images/stability_1700000000.png").
Proof. vm_compute. split; [right; right; left; reflexivity | reflexivity]. Qed.

(* ------------------------------------------------------------------ *)
(** ** Every provider failing *)

Lemma no_success_http e s :
  no_success s ->
  exists r s', http e s = (r, s') /\ no_success s' /\ log s' = (log s ++ [e])%list /\
    match r with Ok (c, _) => c <> 200 | Raise _ => True end.
Proof.
  intros Hs. unfold http, record_event, no_success in *. cbn [net log clock].
  destruct (net s) as [|[c b|m] rest]; cbn.
  - eexists _, _. split; [reflexivity|]. cbn. repeat split; auto.
  - inversion Hs as [|? ? Hc Hrest]; subst.
    eexists _, _. split; [reflexivity|]. cbn. repeat split; auto.
  - inversion Hs as [|? ? Hc Hrest]; subst.
    eexists _, _. split; [reflexivity|]. cbn. repeat split; auto.
Qed.

Ltac no_success_step Hs :=
  match goal with
  | |- context [http ?e ?s] =>
      let r := fresh "r" in let s' := fresh "s" in let H := fresh "H" in
      let Hs' := fresh "Hs" in let Hl := fresh "Hl" in let Hr := fresh "Hr" in
      destruct (no_success_http e s Hs) as [r [s' [H [Hs' [Hl Hr]]]]];
      rewrite H; clear H; cbn beta iota;
      destruct r as [[?c ?b]|?m];
      [rewrite (proj2 (Z.eqb_neq _ _) Hr); cbn beta iota|]
  end.

Lemma dalle_no_success g prompt sz s :
  no_success s -> exists s', generate_with_openai_dalle g prompt sz s = (Ok None, s') /\ no_success s'.
Proof.
  intros Hs. unfold generate_with_openai_dalle.
  destruct (String.eqb (openai_api_key g) ""); [now exists s|].
  unfold catch, bind, ret, http_post.
  no_success_step Hs; now eexists.
Qed.

Lemma stability_no_success g prompt sz s :
  no_success s -> exists s', generate_with_stability_ai g prompt sz s = (Ok None, s') /\ no_success s'.
Proof.
  intros Hs. unfold generate_with_stability_ai.
  destruct (String.eqb (stability_api_key g) ""); [now exists s|].
  unfold catch, bind, ret, http_post.
  no_success_step Hs; now eexists.
Qed.

Lemma huggingface_no_success g prompt s :
  no_success s -> exists e s', generate_with_huggingface g prompt s = (Raise e, s') /\ no_success s'.
Proof.
  intros Hs. unfold generate_with_huggingface.
  destruct (String.eqb (huggingface_token g) ""); [now exists "HUGGINGFACE_TOKEN not found in environment", s|].
  unfold catch, bind, ret, raise, sleep, http_post.
  no_success_step Hs; [|now eexists _, _].
  destruct (c =? 503); cbn beta iota.
  - no_success_step Hs0; [|now eexists _, _].
    cbn [negb]. no_success_step Hs1; now eexists _, _.
  - cbn [negb]. no_success_step Hs0; now eexists _, _.
Qed.

Lemma acquire_image_no_success g name it i prompt sz s :
  no_success s -> fst (acquire_image g "auto" name it i prompt sz s) = Ok None.
Proof.
  intros Hs. unfold acquire_image.
  change (String.eqb "auto" "dalle" || String.eqb "auto" "auto")%bool with true.
  change (String.eqb "auto" "stability" || String.eqb "auto" "auto")%bool with true.
  change (String.eqb "auto" "huggingface" || String.eqb "auto" "auto")%bool with true.
  unfold bind at 1 2. cbn beta iota.
  unfold bind at 1.
  destruct (dalle_no_success g prompt sz s Hs) as [s1 [H1 Hs1]]. rewrite H1. cbn beta iota.
  cbn [truthy negb andb]. unfold ret at 1. cbn beta iota.
  unfold bind at 1. cbn [truthy negb andb].
  destruct (stability_no_success g prompt sz s1 Hs1) as [s2 [H2 Hs2]]. rewrite H2. cbn beta iota.
  cbn [truthy negb andb]. unfold catch, bind at 1.
  destruct (huggingface_no_success g prompt s2 Hs2) as [e [s3 [H3 Hs3]]].
  unfold bind at 1. rewrite H3. reflexivity.
Qed.

Lemma acquire_image_uncredentialed g name it i prompt sz s :
  openai_api_key g = "" -> stability_api_key g = "" -> huggingface_token g = "" ->
  acquire_image g "auto" name it i prompt sz s = (Ok None, s).
Proof.
  destruct g as [od ok sk ht]; cbn; intros -> -> ->. reflexivity.
Qed.

Lemma generate_product_image_failure (py_hash : string -> Z) key outcome prompt :
  (key = "" \/ key = "your_openai_key_here" \/
   match outcome with DalleData (_ :: _) => False | _ => True end) ->
  generate_product_image py_hash key outcome prompt = get_smart_fallback_image py_hash prompt.
Proof.
  intros H. unfold generate_product_image.
  destruct H as [->|[->|H]]; [reflexivity|reflexivity|].
  destruct (_ || _)%bool; [reflexivity|].
  destruct outcome as [[|u us]| | |]; easy.
Qed.

(** C1 (as the code has it).  In the three-provider loop of
    [generate_product_images] (preference [auto]), when every provider
    fails, because no key is configured or because no request gets a 200
    answer, the acquisition of an image ends normally with no locator
    ([None]: nothing is recorded for that image), without an exception
    escaping.  The deterministic fallback resolver is used by the
    single-provider [generate_product_image], which on every DALL-E
    failure returns a non-empty URL of the resolver's known set. *)
Theorem acquire_all_fail_no_locator :
  (forall g product_name image_type i prompt sz s,
     (openai_api_key g = "" /\ stability_api_key g = "" /\ huggingface_token g = "")
     \/ no_success s ->
     fst (acquire_image g "auto" product_name image_type i prompt sz s) = Ok None) /\
  (forall (py_hash : string -> Z) key outcome prompt,
     (key = "" \/ key = "your_openai_key_here" \/
      match outcome with DalleData (_ :: _) => False | _ => True end) ->
     exists u, generate_product_image py_hash key outcome prompt = Ok u /\
               u <> "" /\ In u fallback_known_set).
Proof.
  split.
  - intros g name it i prompt sz s [[H1 [H2 H3]]|Hs].
    + now rewrite acquire_image_uncredentialed.
    + now apply acquire_image_no_success.
  - intros h key outcome prompt H.
    rewrite generate_product_image_failure by exact H.
    apply fallback_known_set_spec.
Qed.

Lemma acquire_all_fail_no_locator_witness :
  fst (acquire_image {| output_dir := "generated_images"; openai_api_key := "sk-test";
                        stability_api_key := "sk-test"; huggingface_token := "hf_token"; can_write := fun _ => true; stability_decodes := fun _ => true |}
         "auto" "Artisan Coffee Roaster" "gallery_item" 0 "p" "600x400"
         {| net := [Resp 429 "quota"; Resp 401 "unauthorized"; Resp 500 "error";
                    Resp 500 "error"]; log := []; clock := 0 |}) = Ok None /\
  (exists u, generate_product_image (fun _ => 7) "" RateLimitError
               "Artisan Coffee Roaster gallery image" = Ok u /\
             u <> "" /\ In u fallback_known_set).
Proof.
  split.
  - apply (proj1 acquire_all_fail_no_locator). right.
    unfold no_success. cbn [net].
    repeat constructor; discriminate.
  - apply (proj2 acquire_all_fail_no_locator). left. reflexivity.
Defined.

(** C1 fails as stated: with no provider credentials, the whole
    three-provider run for ["Artisan Coffee Roaster"] ends with every
    image list empty, so no locator, fallback or otherwise, is returned. *)
Lemma generate_product_images_uncredentialed_empty :
  fst (generate_product_images
         {| output_dir := "generated_images"; openai_api_key := "";
            stability_api_key := ""; huggingface_token := ""; can_write := fun _ => true; stability_decodes := fun _ => true |}
         "Artisan Coffee Roaster" "auto"
         {| net := []; log := []; clock := 1700000000 |}) = Ok initial_images /\
  initial_images = [("hero_background", []); ("product_showcase", []);
                    ("feature_icons", []); ("gallery_items", [])].
Proof. split; vm_compute; reflexivity. Qed.

(* ------------------------------------------------------------------ *)
(** ** The website-integration output *)

(** [total_images] counts the collected locators: it is the sum of the
    lengths of the returned image lists. *)
Lemma generate_for_website_total_images g name pref s w s' :
  generate_for_website g name pref s = (Ok w, s') ->
  total_images w =
    fold_left Z.add (map (fun '(_, paths) => Z.of_nat (List.length paths)) (wd_images w)) 0.
Proof.
  unfold generate_for_website, bind, now, ret.
  destruct (generate_product_images g name pref s) as [[imgs|e] s1]; [|discriminate].
  intros H; injection H as <- _. cbn [total_images wd_images].
  rewrite map_map. f_equal. apply map_ext. intros [k paths]. now rewrite length_map.
Qed.

(** The [success] field is the constant [True] of the source. *)
Lemma generate_for_website_success_constant g name pref s w s' :
  generate_for_website g name pref s = (Ok w, s') -> success w = true.
Proof.
  unfold generate_for_website, bind, now, ret.
  destruct (generate_product_images g name pref s) as [[imgs|e] s1]; [|discriminate].
  intros H; injection H as <- _. reflexivity.
Qed.

(** C9 (code defect).  With no provider credentials, no provider call
    succeeds and no image is collected ([total_images] is 0), yet the
    result's boolean [success] is [True]: the flag does not tell a run
    with genuine images from one without (and [main]'s "No images were
    generated" branch on [success] being false is unreachable). *)
Theorem generate_for_website_uncredentialed_success :
  exists w s',
    generate_for_website
      {| output_dir := "generated_images"; openai_api_key := "";
         stability_api_key := ""; huggingface_token := ""; can_write := fun _ => true; stability_decodes := fun _ => true |}
      "Artisan Coffee Roaster" "auto"
      {| net := []; log := []; clock := 1700000000 |} = (Ok w, s') /\
    total_images w = 0 /\ success w = true /\
    Forall (fun '(_, paths) => paths = []) (wd_images w) /\
    Forall (fun e => match e with EPost _ | EGet _ => False | ESleep _ => True end) (log s').
Proof.
  eexists _, _. split; [vm_compute; reflexivity|].
  vm_compute. repeat split; repeat constructor.
Qed.

(* ================================================================== *)
(** * Further properties of the pipeline *)

(* ------------------------------------------------------------------ *)
(** ** What the adapters return *)

Lemma dalle_returns g prompt sz :
  returns (generate_with_openai_dalle g prompt sz) (fun _ => True).
Proof.
  unfold generate_with_openai_dalle. destruct (String.eqb _ _).
  - now apply returns_ret.
  - apply returns_catch; [|intros; now apply returns_ret].
    intros s a s' _. exact I.
Qed.

Lemma written_file_intro g f :
  f <> "" -> can_write g (path_join (output_dir g) f) = true ->
  written_file g (path_join (output_dir g) f).
Proof. intros Hf Hw. exists f. auto. Qed.

Lemma write_returns g f :
  f <> "" ->
  ok_post (let filepath := path_join (output_dir g) f in
           if can_write g filepath then ret (Some filepath) else raise "IOError")
    (local_result g).
Proof.
  intros Hf. cbv zeta. destruct (can_write g _) eqn:Hw.
  - apply returns_ok_post, returns_ret. right. eexists. split; [reflexivity|].
    now apply written_file_intro.
  - apply ok_post_raise.
Qed.

Lemma download_returns g url filename :
  filename <> "" -> returns (download_image g url filename) (local_result g).
Proof.
  intros Hf.
  unfold download_image. apply returns_catch; [|intros; apply returns_ret; now left].
  apply (ok_post_bind _ _ (fun _ => True)); [apply ok_post_http|].
  intros [code body] _.
  destruct (code =? 200); [now apply write_returns|].
  apply returns_ok_post, returns_ret. now left.
Qed.

Lemma stability_returns g prompt sz :
  returns (generate_with_stability_ai g prompt sz) (local_result g).
Proof.
  unfold generate_with_stability_ai. destruct (String.eqb _ _).
  - apply returns_ret; now left.
  - apply returns_catch; [|intros; apply returns_ret; now left].
    apply (ok_post_bind _ _ (fun _ => True)); [apply ok_post_http|].
    intros [code body] _.
    destruct (code =? 200); [|apply returns_ok_post, returns_ret; now left].
    destruct (stability_decodes g body); [|apply ok_post_raise].
    apply (ok_post_bind _ _ (fun _ => True)); [apply returns_ok_post, returns_now|].
    intros t _. apply write_returns. discriminate.
Qed.

Lemma acquire_returns g pref name it i prompt sz :
  returns (acquire_image g pref name it i prompt sz) (local_result g).
Proof.
  unfold acquire_image.
  apply (returns_bind _ _ (local_result g)).
  { destruct (_ || _)%bool; [|apply returns_ret; now left].
    apply (returns_bind _ _ _ _ (dalle_returns g prompt sz)). intros u _.
    destruct (truthy u); [|apply returns_ret; now left].
    apply (returns_bind _ _ _ _ returns_now). intros t _.
    apply download_returns, dalle_filename_nonempty. }
  intros ip Hip.
  apply (returns_bind _ _ (local_result g)).
  { destruct (_ && _)%bool; [apply stability_returns | now apply returns_ret]. }
  intros ip2 Hip2.
  apply (returns_bind _ _ (local_result g)).
  { destruct (_ && _)%bool; [|now apply returns_ret].
    apply returns_catch; [|intros; now apply returns_ret].
    apply (ok_post_bind _ _ (fun _ => True)).
    - intros s a s' _. exact I.
    - intros c _. destruct (negb _); [|now apply returns_ok_post, returns_ret].
      apply (ok_post_bind _ _ (fun _ => True)); [apply returns_ok_post, returns_now|].
      intros t _. apply write_returns. discriminate. }
  intros ip3 Hip3. now apply returns_ret.
Qed.

(* ------------------------------------------------------------------ *)
(** ** The image loop *)

Lemma generate_one_returns g pref name cat it i t :
  In it loop_image_types ->
  returns (generate_one g pref name cat it i (slots t))
    (fun d => exists o, one_local g o /\ d = slots (bump it o t)).
Proof.
  intros Hit. unfold generate_one.
  destruct (generate_prompt_ok name it cat i) as [p Hp].
  apply (returns_bind _ _ (fun _ => True)); [now apply (returns_lift_ok p)|].
  intros prompt _.
  assert (Hcfg : exists cfg, dict_getitem image_types it = Ok cfg).
  { destruct Hit as [<- | [<- | [<- | [<- | []]]]]; eexists; reflexivity. }
  destruct Hcfg as [cfg Hcfg].
  apply (returns_bind _ _ (fun _ => True)); [now apply (returns_lift_ok cfg)|].
  intros cfg' _.
  apply (returns_bind _ _ _ _ (acquire_returns g pref name it i prompt (size cfg'))).
  intros ip Hip.
  apply (returns_bind _ _ (fun d => exists o, one_local g o /\ d = slots (bump it o t))).
  2:{ intros d Hd. apply (returns_bind _ _ _ _ (returns_sleep 1)).
      intros _ _. now apply returns_ret. }
  destruct t as [[[l1 l2] l3] l4].
  destruct Hip as [-> | [p' [-> Hw]]].
  - apply returns_ret. exists []. split; [now left|].
    destruct Hit as [<- | [<- | [<- | [<- | []]]]]; cbn; now rewrite ?app_nil_r.
  - assert (Hne : String.eqb p' "" = false).
    { destruct Hw as [f [Hf [-> _]]]. now apply path_join_nonempty. }
    cbn [truthy]. rewrite Hne. cbn [negb].
    destruct Hit as [<- | [<- | [<- | [<- | []]]]];
      (eapply returns_lift_ok; [reflexivity|]);
      exists [p']; (split; [right; now exists p'|]); reflexivity.
Qed.

Lemma bump_app it o1 o2 t : bump it o2 (bump it o1 t) = bump it (o1 ++ o2)%list t.
Proof.
  destruct t as [[[l1 l2] l3] l4]. unfold bump.
  destruct (String.eqb it "feature_icon"); [now rewrite app_assoc|].
  destruct (String.eqb it "gallery_item"); [now rewrite app_assoc|].
  destruct (String.eqb it "hero_background"); now rewrite app_assoc.
Qed.

Lemma inner_loop_returns g pref name cat it xs t :
  In it loop_image_types ->
  returns
    (for_each xs (fun i imgs' => generate_one g pref name cat it i imgs') (slots t))
    (fun d => exists o, (length o <= length xs)%nat /\ all_local g o /\
                        d = slots (bump it o t)).
Proof.
  intros Hit. revert t. induction xs as [|x xs IH]; intros t.
  - apply returns_ret. exists []. cbn. split; [lia|]. split; [constructor|].
    destruct t as [[[l1 l2] l3] l4]. unfold bump.
    now repeat (destruct (String.eqb _ _)); rewrite ?app_nil_r.
  - cbn [for_each]. apply (returns_bind _ _ _ _ (generate_one_returns g pref name cat it x t Hit)).
    intros d [o1 [Ho1 ->]].
    apply (returns_weaken _ _ _ (IH (bump it o1 t))).
    intros d [o2 [Hlen [Hall ->]]]. exists (o1 ++ o2)%list.
    rewrite bump_app. split; [|split; [|reflexivity]].
    + rewrite length_app. cbn [length].
      destruct Ho1 as [-> | [p [-> _]]]; cbn [length]; lia.
    + apply Forall_app. split; [|exact Hall].
      destruct Ho1 as [-> | [p [-> Hp]]]; repeat constructor. exact Hp.
Qed.

Lemma length_py_range c : (0 <= c)%Z -> length (py_range c) = Z.to_nat c.
Proof. intros _. unfold py_range. now rewrite length_map, length_seq. Qed.

Lemma generate_product_images_returns g name pref :
  returns (generate_product_images g name pref)
    (fun d => exists l1 l2 l3 l4, d = slots (l1, l2, l3, l4) /\
       (length l1 <= 1)%nat /\ (length l2 <= 2)%nat /\ (length l3 <= 3)%nat /\
       (length l4 <= 4)%nat /\ all_local g (l1 ++ l2 ++ l3 ++ l4)%list).
Proof.
  unfold generate_product_images. cbn [for_each image_configs].
  change initial_images with (slots ([], [], [], [])).
  set (cat := categorize_product name).
  apply (returns_bind _ _ _ _
           (inner_loop_returns g pref name cat "hero_background" (py_range 1) _
              ltac:(cbn; tauto))).
  intros d [o1 [H1 [A1 ->]]]. cbn [bump String.eqb Ascii.eqb Bool.eqb andb] in *.
  apply (returns_bind _ _ _ _
           (inner_loop_returns g pref name cat "product_showcase" (py_range 2) _
              ltac:(cbn; tauto))).
  intros d [o2 [H2 [A2 ->]]]. cbn [bump String.eqb Ascii.eqb Bool.eqb andb] in *.
  apply (returns_bind _ _ _ _
           (inner_loop_returns g pref name cat "feature_icon" (py_range 3) _
              ltac:(cbn; tauto))).
  intros d [o3 [H3 [A3 ->]]]. cbn [bump String.eqb Ascii.eqb Bool.eqb andb] in *.
  apply (returns_bind _ _ _ _
           (inner_loop_returns g pref name cat "gallery_item" (py_range 4) _
              ltac:(cbn; tauto))).
  intros d [o4 [H4 [A4 ->]]]. cbn [bump String.eqb Ascii.eqb Bool.eqb andb] in *.
  apply returns_ret. exists o1, o2, o3, o4. cbn [app].
  rewrite !length_py_range in * by lia. cbn in H1, H2, H3, H4.
  repeat split; try lia.
  unfold all_local. rewrite !Forall_app. tauto.
Qed.

(** The image loop never raises, whatever the keys, the services'
    answers and the file system: it returns exactly the four lists
    hero_background, product_showcase, feature_icons and gallery_items,
    holding at most 1, 2, 3 and 4 paths; each path is
    [os.path.join(output_dir, f)] for a non-empty file name [f] and is one
    the file system lets the loop write, so a failed write never adds a
    path. *)
Theorem generate_product_images_shape g name pref s :
  exists l1 l2 l3 l4 s',
    generate_product_images g name pref s = (Ok (slots (l1, l2, l3, l4)), s') /\
    (length l1 <= 1)%nat /\ (length l2 <= 2)%nat /\ (length l3 <= 3)%nat /\
    (length l4 <= 4)%nat /\
    Forall (fun p => exists f, f <> "" /\ p = path_join (output_dir g) f /\
                               can_write g p = true)
      (l1 ++ l2 ++ l3 ++ l4)%list.
Proof.
  destruct (generate_product_images_returns g name pref s)
    as [d [s' [E [l1 [l2 [l3 [l4 [-> [H1 [H2 [H3 [H4 H]]]]]]]]]]]].
  exists l1, l2, l3, l4, s'. repeat split; auto.
Qed.

(** [generate_for_website] never raises either, and counts at most ten
    images: its [total_images] is between 0 and 10. *)
Theorem generate_for_website_total_at_most_10 g name pref s :
  exists w s', generate_for_website g name pref s = (Ok w, s') /\
               (0 <= total_images w <= 10)%Z.
Proof.
  destruct (generate_product_images_returns g name pref s)
    as [d [s1 [E [l1 [l2 [l3 [l4 [-> [H1 [H2 [H3 [H4 _]]]]]]]]]]]].
  unfold generate_for_website, bind at 1. rewrite E.
  cbn. eexists _, _. split; [reflexivity|]. cbn. lia.
Qed.


Lemma huggingface_log g prompt s :
  exists evs, log (snd (generate_with_huggingface g prompt s)) = (log s ++ evs)%list /\
              In evs hf_patterns.
Proof.
  unfold generate_with_huggingface.
  destruct (String.eqb (huggingface_token g) "").
  - exists []. split; [now rewrite app_nil_r | cbn; tauto].
  - unfold catch, bind, http_post, http, sleep, ret, raise, record_event. cbn [net log clock snd].
    destruct (net s) as [|[c1 b1|m1] n1]; cbn [snd log];
      [eexists; split; [reflexivity|cbn; tauto] | | eexists; split; [reflexivity|cbn; tauto]].
    destruct (c1 =? 200); [eexists; split; [reflexivity|cbn; tauto]|].
    destruct (c1 =? 503); cbn [negb snd log net].
    + destruct n1 as [|[c2 b2|m2] n2]; cbn [snd log];
        [eexists; split; [rewrite <- !app_assoc; reflexivity|cbn; tauto] | |
         eexists; split; [rewrite <- !app_assoc; reflexivity|cbn; tauto]].
      destruct (c2 =? 200); cbn [negb snd log net];
        [eexists; split; [rewrite <- !app_assoc; reflexivity|cbn; tauto]|].
      destruct n2 as [|[c3 b3|m3] n3]; cbn [snd log];
        [| destruct (c3 =? 200) |];
        eexists; split; try (rewrite <- !app_assoc; reflexivity); cbn; tauto.
    + destruct n1 as [|[c3 b3|m3] n3]; cbn [snd log];
        [| destruct (c3 =? 200) |];
        eexists; split; try (rewrite <- !app_assoc; reflexivity); cbn; tauto.
Qed.

Lemma huggingface_log_cases g prompt s :
  exists evs, log (snd (generate_with_huggingface g prompt s)) = (log s ++ evs)%list /\
    In evs hf_patterns /\
    (huggingface_token g = "" -> evs = []) /\
    (huggingface_token g <> "" -> exists rest, evs = EPost hf_url_primary :: rest) /\
    (In (ESleep 10) evs -> exists b, hd_error (net s) = Some (Resp 503 b)).
Proof.
  unfold generate_with_huggingface.
  destruct (String.eqb_spec (huggingface_token g) "") as [Ht|Ht].
  - exists []. split; [now rewrite app_nil_r|].
    split; [cbn; tauto|]. split; [reflexivity|]. split; [congruence|]. cbn; tauto.
  - unfold catch, bind, http_post, http, sleep, ret, raise, record_event. cbn [net log clock snd].
    destruct (net s) as [|[c1 b1|m1] n1] eqn:En; cbn [snd log];
      [| destruct (c1 =? 200) eqn:E200; [|destruct (c1 =? 503) eqn:E503] |];
      cbn [negb snd log net];
      [ | | destruct n1 as [|[c2 b2|m2] n2];
            cbn [snd log]; [| destruct (c2 =? 200); cbn [negb snd log net];
                              [|destruct n2 as [|[c3 b3|m3] n3]; cbn [snd log];
                                [| destruct (c3 =? 200) |]] |]
      | destruct n1 as [|[c3 b3|m3] n3]; cbn [snd log]; [| destruct (c3 =? 200) |]
      | ];
      eexists; (split; [try (rewrite <- !app_assoc); reflexivity|]);
      (split; [cbn; tauto|]); (split; [intro; contradiction|]);
      (split; [intros _; eexists; reflexivity|]);
      intros Hin;
      first [ exfalso; cbn in Hin; intuition discriminate
            | exists b1; apply Z.eqb_eq in E503; subst c1; reflexivity ].
Qed.

(** Every call of [generate_with_huggingface] makes one of the request
    sequences of [hf_patterns]: none without a token, otherwise one or
    (after a 503 answer and a 10 second pause) two requests to the
    primary model, possibly followed by one to the simpler model; so at
    most three requests and at most one pause, whatever the answers.
    Without a token no request is made; with one, the first request goes
    to the primary model; and the pause happens only when the answer to
    that first request is a 503. *)
Theorem huggingface_request_patterns g prompt s :
  exists evs, log (snd (generate_with_huggingface g prompt s)) = (log s ++ evs)%list /\
    In evs hf_patterns /\
    (huggingface_token g = "" -> evs = []) /\
    (huggingface_token g <> "" -> exists rest, evs = EPost hf_url_primary :: rest) /\
    (In (ESleep 10) evs -> exists b, hd_error (net s) = Some (Resp 503 b)).
Proof. exact (huggingface_log_cases g prompt s). Qed.

Lemma hf_log_grows g prompt :
  log_grows (generate_with_huggingface g prompt)
    (fun e => In e [EPost hf_url_primary; EPost hf_url_simple; ESleep 10]).
Proof.
  intros s. destruct (huggingface_log g prompt s) as [evs [L Hin]].
  exists evs. split; [exact L|].
  cbn in Hin. repeat (destruct Hin as [<- | Hin]); try contradiction;
    repeat constructor; cbn; tauto.
Qed.

(** A pinned preference contacts only its own provider: under "dalle"
    the loop step only posts to the DALL-E endpoint and downloads; under
    "stability" it only posts to Stability AI; under "huggingface" it only
    posts to the two Hugging Face models and pauses 10 seconds. *)
Theorem acquire_image_pinned_requests g name it i prompt sz :
  log_grows (acquire_image g "dalle" name it i prompt sz)
    (fun e => e = EPost dalle_url \/ exists u, e = EGet u) /\
  log_grows (acquire_image g "stability" name it i prompt sz)
    (fun e => e = EPost stability_url) /\
  log_grows (acquire_image g "huggingface" name it i prompt sz)
    (fun e => In e [EPost hf_url_primary; EPost hf_url_simple; ESleep 10]).
Proof.
  unfold acquire_image, generate_with_openai_dalle, generate_with_stability_ai,
    download_image, http_post, http_get.
  cbn [String.eqb Ascii.eqb Bool.eqb orb andb negb].
  split; [|split]; log_rules; cbn [negb andb]; log_rules; eauto.
  eapply log_grows_weaken; [apply hf_log_grows|]; tauto.
Qed.

(* ------------------------------------------------------------------ *)
(** ** Unknown preferences and [main] *)

Lemma not_in_known_eqb p :
  ~ In p known_preferences ->
  String.eqb p "dalle" = false /\ String.eqb p "stability" = false /\
  String.eqb p "huggingface" = false /\ String.eqb p "auto" = false.
Proof.
  intros H. cbn in H. rewrite !String.eqb_neq. intuition congruence.
Qed.

Lemma acquire_image_unknown g pref name it i prompt sz s :
  ~ In pref known_preferences ->
  acquire_image g pref name it i prompt sz s = (Ok None, s).
Proof.
  intros H. destruct (not_in_known_eqb pref H) as [E1 [E2 [E3 E4]]].
  unfold acquire_image. rewrite E1, E2, E3, E4. reflexivity.
Qed.

Lemma generate_one_unknown g pref name cat it i d s :
  ~ In pref known_preferences -> In it loop_image_types ->
  generate_one g pref name cat it i d s = (Ok d, tick s).
Proof.
  intros Hp Hit. unfold generate_one.
  destruct (generate_prompt_ok name it cat i) as [p Hp'].
  assert (Hcfg : exists cfg, dict_getitem image_types it = Ok cfg).
  { destruct Hit as [<- | [<- | [<- | [<- | []]]]]; eexists; reflexivity. }
  destruct Hcfg as [cfg Hcfg].
  unfold bind at 1, lift at 1. rewrite Hp'.
  unfold bind at 1, lift at 1. rewrite Hcfg.
  unfold bind at 1. rewrite acquire_image_unknown by exact Hp.
  reflexivity.
Qed.

Lemma for_each_same {A B} (xs : list A) (body : A -> B -> M B) (F : A -> St -> St) acc s :
  (forall x acc s, In x xs -> body x acc s = (Ok acc, F x s)) ->
  for_each xs body acc s = (Ok acc, fold_left (fun s x => F x s) xs s).
Proof.
  revert s. induction xs as [|x xs IH]; intros s H; [reflexivity|].
  cbn [for_each fold_left]. unfold bind at 1. rewrite H by now left.
  apply IH. intros; apply H; now right.
Qed.

Lemma iter_tick n s :
  Nat.iter n tick s =
  {| net := net s; log := (log s ++ repeat (ESleep 1) n)%list;
     clock := clock s + Z.of_nat n |}.
Proof.
  induction n as [|n IH].
  - destruct s; cbn. now rewrite app_nil_r, Z.add_0_r.
  - rewrite Nat.iter_succ, IH. unfold tick. cbn [net log clock]. f_equal.
    + rewrite <- app_assoc. f_equal. cbn. rewrite repeat_cons. reflexivity.
    + lia.
Qed.

Lemma fold_same_iter {A} (xs : list A) s :
  fold_left (fun s _ => tick s) xs s = Nat.iter (length xs) tick s.
Proof.
  revert s. induction xs as [|x xs IH]; intros s; [reflexivity|].
  cbn [fold_left length]. rewrite IH. now rewrite <- Nat.iter_succ_r.
Qed.

Lemma generate_product_images_unknown_run g name pref s :
  ~ In pref known_preferences ->
  generate_product_images g name pref s =
  (Ok initial_images,
   {| net := net s; log := (log s ++ repeat (ESleep 1) 10)%list; clock := clock s + 10 |}).
Proof.
  intros Hp. rewrite <- iter_tick. unfold generate_product_images.
  rewrite (for_each_same image_configs _
             (fun '(it, c) s => Nat.iter (length (py_range c)) tick s)).
  - reflexivity.
  - intros [it c] acc s' Hin. rewrite <- fold_same_iter.
    apply (for_each_same _ _ (fun _ => tick)).
    intros x acc' s'' _. apply generate_one_unknown; [exact Hp|].
    cbn in Hin. unfold loop_image_types.
    repeat (destruct Hin as [Hin | Hin]; [injection Hin as <- <-; cbn; tauto|]); contradiction.
Qed.


(** With a preference other than dalle, stability, huggingface and auto,
    [generate_product_images] makes no request and generates no image:
    it returns the four empty lists, and its only effect is the ten
    one-second pauses of the loop. *)
Theorem generate_product_images_unknown_preference g name pref s :
  ~ In pref known_preferences ->
  generate_product_images g name pref s =
  (Ok initial_images,
   {| net := net s; log := (log s ++ repeat (ESleep 1) 10)%list; clock := clock s + 10 |}).
Proof. intros Hp. exact (generate_product_images_unknown_run g name pref s Hp). Qed.

Lemma generate_product_images_unknown_preference_witness :
  ~ In "Watch" known_preferences /\
  generate_product_images
    {| output_dir := "generated_images"; openai_api_key := "k";
       stability_api_key := "k"; huggingface_token := "k"; can_write := fun _ => true; stability_decodes := fun _ => true |} "Smart" "Watch"
    {| net := []; log := []; clock := 0 |} =
  (Ok initial_images, {| net := []; log := ([] ++ repeat (ESleep 1) 10)%list; clock := 0 + 10 |}).
Proof.
  assert (H : ~ In "Watch" known_preferences) by (cbn; intuition discriminate).
  split; [exact H|].
  exact (generate_product_images_unknown_preference
           {| output_dir := "generated_images"; openai_api_key := "k";
              stability_api_key := "k"; huggingface_token := "k"; can_write := fun _ => true; stability_decodes := fun _ => true |}
           "Smart" "Watch" {| net := []; log := []; clock := 0 |} H).
Defined.

Lemma main_args_multi prog words w :
  words <> [] -> main_args (prog :: words ++ [w])%list = Some (String.concat " " words, w).
Proof.
  intros Hw. destruct words as [|w1 ws]; [congruence|].
  cbn [app main_args].
  destruct (ws ++ [w])%list as [|x r] eqn:E; [now destruct ws|].
  rewrite <- E. change (w1 :: ws ++ [w])%list with ((w1 :: ws) ++ [w])%list.
  now rewrite removelast_last, last_last.
Qed.

(** When [main] is given several words and the last one is not a known
    preference (as in [python ai_image_generator.py Smart Watch]), that
    last word becomes the API preference and the others the product name;
    the run then makes no request and generates no image, yet reports
    success with [total_images] 0. *)
Theorem main_last_word_taken_as_preference g prog words w s :
  words <> [] -> ~ In w known_preferences ->
  main_args (prog :: words ++ [w])%list = Some (String.concat " " words, w) /\
  exists site s',
    generate_for_website g (String.concat " " words) w s = (Ok site, s') /\
    success site = true /\ total_images site = 0 /\
    net s' = net s /\ log s' = (log s ++ repeat (ESleep 1) 10)%list.
Proof.
  intros Hw Hp. split; [now apply main_args_multi|].
  unfold generate_for_website, bind at 1.
  rewrite generate_product_images_unknown_run by exact Hp.
  eexists _, _. split; [reflexivity|]. cbn. repeat split.
Qed.

Lemma main_last_word_taken_as_preference_witness :
  main_args ["ai_image_generator.py"; "Smart"; "Watch"] = Some ("Smart", "Watch") /\
  exists site s',
    generate_for_website
      {| output_dir := "generated_images"; openai_api_key := "k";
         stability_api_key := "k"; huggingface_token := "k"; can_write := fun _ => true; stability_decodes := fun _ => true |} "Smart" "Watch"
      {| net := []; log := []; clock := 0 |} = (Ok site, s') /\
    success site = true /\ total_images site = 0 /\
    net s' = [] /\ log s' = ([] ++ repeat (ESleep 1) 10)%list.
Proof.
  exact (main_last_word_taken_as_preference
           {| output_dir := "generated_images"; openai_api_key := "k";
              stability_api_key := "k"; huggingface_token := "k"; can_write := fun _ => true; stability_decodes := fun _ => true |}
           "ai_image_generator.py" ["Smart"] "Watch" {| net := []; log := []; clock := 0 |}
           ltac:(discriminate) ltac:(cbn; intuition discriminate)).
Defined.

(* ------------------------------------------------------------------ *)
(** ** The site generator: categories and DALL-E prompts *)

Lemma fallback_categorization_valid name :
  In (fallback_categorization name) valid_categories.
Proof.
  unfold fallback_categorization.
  repeat (destruct (any_keyword_in _ _)); cbn; tauto.
Qed.

Lemma gpt_categorize_product_in api_key has_client outcome name :
  In (gpt_categorize_product api_key has_client outcome name) valid_categories.
Proof.
  unfold gpt_categorize_product.
  destruct (String.eqb api_key ""); [apply fallback_categorization_valid|].
  destruct (truthy _); [|apply fallback_categorization_valid].
  destruct (existsb _ _) eqn:E; [|cbn; tauto].
  apply existsb_exists in E as [x [Hx Heq]].
  apply String.eqb_eq in Heq. now rewrite Heq.
Qed.

(** Whatever the API key, the client and the model's answer, the site
    generator's [categorize_product] returns one of the eight valid
    categories. A missing key, a missing client, no choice, an error, or
    an answer that is empty once stripped gives [_fallback_categorization]
    of the name (keyword rules which only produce valid categories).
    Otherwise the result is the stripped, lower-cased answer when it is
    one of the eight, and "technology" when it is not. *)
Theorem gpt_categorize_product_valid api_key has_client outcome name :
  In (gpt_categorize_product api_key has_client outcome name) valid_categories /\
  ((api_key = "" \/ has_client = false \/ outcome = ChatNoChoice \/
    (exists m, outcome = ChatError m) \/
    (exists c, outcome = ChatContent c /\ strip c = "")) ->
   gpt_categorize_product api_key has_client outcome name =
   fallback_categorization name) /\
  (forall c, api_key <> "" -> has_client = true -> outcome = ChatContent c ->
   strip c <> "" ->
   gpt_categorize_product api_key has_client outcome name =
   (let category := lower (strip (strip c)) in
    if existsb (String.eqb category) valid_categories then category
    else "technology")).
Proof.
  split; [apply gpt_categorize_product_in|]. split.
  - intros H. unfold gpt_categorize_product.
    destruct (String.eqb_spec api_key "") as [->|Hk]; [reflexivity|].
    replace (truthy (call_openai_api api_key has_client outcome)) with false;
      [reflexivity|].
    destruct H as [H|[H|[H|[[m H]|[c [H1 H2]]]]]]; [congruence| | | |];
      unfold call_openai_api; rewrite (proj2 (String.eqb_neq _ _) Hk); subst;
      try destruct has_client; cbn; try reflexivity.
    destruct (String.eqb c ""); [reflexivity|]. cbn. rewrite H2. reflexivity.
  - intros c Hk Hc Ho Hs. unfold gpt_categorize_product, call_openai_api.
    rewrite (proj2 (String.eqb_neq _ _) Hk), Hc, Ho. cbn [negb].
    destruct (String.eqb_spec c "") as [->|_]; [exfalso; apply Hs; reflexivity|].
    cbn [truthy]. rewrite (proj2 (String.eqb_neq _ _) Hs). cbn [negb]. reflexivity.
Qed.

(** Without an API key the site generator files a product under
    food_beverage exactly when its lower-cased name contains one of the
    food words (checked before every other list, so "smart coffee maker"
    is food), or when it contains no keyword of any list at all. *)
Theorem gpt_categorize_product_food_default has_client outcome name :
  let n := lower name in
  gpt_categorize_product "" has_client outcome name = "food_beverage" <->
  any_keyword_in gpt_food_words n = true \/
  (any_keyword_in gpt_tech_words n = false /\ any_keyword_in gpt_fashion_words n = false /\
   any_keyword_in gpt_health_words n = false /\ any_keyword_in gpt_automotive_words n = false /\
   any_keyword_in gpt_sports_words n = false /\ any_keyword_in gpt_home_words n = false /\
   any_keyword_in gpt_business_words n = false).
Proof.
  cbn zeta. unfold gpt_categorize_product. cbn [String.eqb].
  unfold fallback_categorization.
  repeat match goal with
         | |- context [if any_keyword_in ?l ?x then _ else _] =>
             destruct (any_keyword_in l x)
         end;
    split; intros H; try discriminate; try tauto; try (left; reflexivity);
    try (right; repeat split; reflexivity);
    destruct H as [H | H]; try discriminate H; try (destruct H; discriminate);
    repeat match goal with H : _ /\ _ |- _ => destruct H end; try discriminate.
Qed.

Lemma dalle_prompt_core_nonempty p : dalle_prompt_core p <> "".
Proof.
  unfold dalle_prompt_core. cbv zeta.
  destruct (String.eqb _ "") eqn:E; [discriminate|].
  intros H. rewrite H in E. discriminate E.
Qed.

(** [clean_dalle_prompt] wraps the cleaned subject [q] (never empty) in
    92 characters of context when the result stays within 800
    characters, i.e. when [q] has at most 708, and otherwise in the short
    form's 40; so the result exceeds the 1000-character limit named in
    its comment exactly when [q] is longer than 960 characters.  Strings
    are byte strings here: these are Python lengths for ASCII text. *)
Theorem clean_dalle_prompt_length p :
  let q := dalle_prompt_core p in
  q <> "" /\
  String.length (clean_dalle_prompt p) =
    (if Nat.leb (String.length q) 708 then String.length q + 92
     else String.length q + 40)%nat /\
  ((String.length (clean_dalle_prompt p) <= 1000)%nat <-> (String.length q <= 960)%nat).
Proof.
  cbn zeta. split; [apply dalle_prompt_core_nonempty|].
  unfold clean_dalle_prompt. cbv zeta.
  set (q := dalle_prompt_core p).
  rewrite !length_append. cbn [String.length].
  destruct (Nat.leb (String.length q) 708) eqn:E.
  - apply Nat.leb_le in E.
    replace (Nat.ltb 800 _) with false by (symmetry; apply Nat.ltb_ge; lia).
    rewrite !length_append. cbn [String.length]. split; [lia|split; intros; lia].
  - apply Nat.leb_gt in E.
    replace (Nat.ltb 800 _) with true by (symmetry; apply Nat.ltb_lt; lia).
    rewrite !length_append. cbn [String.length]. split; [lia|split; intros; lia].
Qed.

(* ------------------------------------------------------------------ *)
(** ** Web paths of [generate_for_website] *)

Lemma replace_fuel_absent fuel old new s :
  (String.length s <= fuel)%nat -> contains old s = false ->
  replace_fuel fuel old new s = s.
Proof.
  revert fuel. induction s as [|c r IH]; intros fuel Hf Hc.
  - destruct fuel; reflexivity.
  - destruct fuel as [|fuel]; [cbn in Hf; lia|].
    cbn [contains] in Hc. destruct (String.prefix old (String c r)) eqn:Hp; [discriminate|].
    cbn [replace_fuel]. rewrite Hp. f_equal. apply IH; [cbn in Hf; lia | exact Hc].
Qed.

Lemma prefix_append_self a b : String.prefix a (a ++ b) = true.
Proof.
  induction a as [|c a IH]; [now destruct b|].
  cbn. destruct (Ascii.ascii_dec c c); [exact IH | congruence].
Qed.

Lemma substring_0_length s : String.substring 0 (String.length s) s = s.
Proof. induction s as [|c s IH]; [reflexivity|]. cbn. now rewrite IH. Qed.

Lemma substring_after_prefix a b :
  String.substring (String.length a) (String.length (a ++ b) - String.length a) (a ++ b) = b.
Proof.
  rewrite length_append. replace (String.length a + String.length b - String.length a)%nat
    with (String.length b) by lia.
  induction a as [|c a IH]; [apply substring_0_length|]. exact IH.
Qed.

Lemma path_join_plain od f :
  od <> "" -> String.prefix "/" f = false -> ends_with_slash od = false ->
  path_join od f = od ++ "/" ++ f.
Proof.
  intros Hne Hp He. unfold path_join. rewrite Hp, He.
  destruct (String.eqb_spec od ""); [congruence|reflexivity].
Qed.

Lemma py_replace_path_join od new f :
  od <> "" -> String.prefix "/" f = false -> ends_with_slash od = false ->
  contains od ("/" ++ f) = false ->
  py_replace od new (path_join od f) = new ++ "/" ++ f.
Proof.
  intros Hne Hp He Hc. rewrite path_join_plain by assumption. unfold py_replace.
  destruct od as [|c r] eqn:Eod; [congruence|]. rewrite <- Eod.
  assert (Hlen : exists n, String.length (od ++ "/" ++ f) = S n /\
                 (String.length ("/" ++ f) <= n)%nat).
  { subst od. cbn [String.length String.append]. rewrite length_append.
    eexists. split; [reflexivity|]. cbn. lia. }
  destruct Hlen as [n [Hn Hle]]. rewrite Hn.
  assert (Hs : exists c' r', od ++ "/" ++ f = String c' r') by (exists c, (r ++ "/" ++ f); subst od; reflexivity).
  destruct Hs as [c' [r' Hs]].
  cbn [replace_fuel]. rewrite Hs. rewrite <- Hs.
  rewrite prefix_append_self, substring_after_prefix.
  f_equal. apply replace_fuel_absent; [cbn [String.length String.append] in *; lia | subst od; exact Hc].
Qed.

(** Every image path [generate_for_website] reports is
    [os.path.join(output_dir, f)], for a non-empty file name [f], with every
    occurrence of [output_dir] replaced by "/generated_images"; when
    [output_dir] is non-empty and does not end in "/", [f] does not start
    with "/", and [output_dir] does not occur in "/f", that is exactly
    "/generated_images/f". *)
Theorem generate_for_website_web_paths g name pref s :
  exists w s', generate_for_website g name pref s = (Ok w, s') /\
    forall key paths p, In (key, paths) (wd_images w) -> In p paths ->
      exists f, f <> "" /\
        p = py_replace (output_dir g) "/generated_images" (path_join (output_dir g) f) /\
        (output_dir g <> "" -> ends_with_slash (output_dir g) = false ->
         String.prefix "/" f = false ->
         contains (output_dir g) ("/" ++ f) = false ->
         p = "/generated_images/" ++ f).
Proof.
  destruct (generate_product_images_returns g name pref s)
    as [d [s1 [E [l1 [l2 [l3 [l4 [-> [_ [_ [_ [_ Hall]]]]]]]]]]]].
  unfold generate_for_website, bind at 1. rewrite E.
  eexists _, _. split; [reflexivity|]. cbn [wd_images].
  intros key paths p Hk Hp.
  unfold all_local in Hall. rewrite !Forall_app in Hall.
  destruct Hall as [A1 [A2 [A3 A4]]].
  assert (Hloc : exists q, In q (l1 ++ l2 ++ l3 ++ l4)%list /\
                 p = py_replace (output_dir g) "/generated_images" q).
  { cbn in Hk.
    repeat (destruct Hk as [Hk | Hk]; [injection Hk as <- <-;
      apply in_map_iff in Hp as [q [<- Hq]]; exists q; split; [|reflexivity];
      rewrite !in_app_iff; tauto |]); contradiction. }
  destruct Hloc as [q [Hq ->]].
  assert (Hq' : written_file g q).
  { rewrite !in_app_iff in Hq.
    destruct Hq as [Hq | [Hq | [Hq | Hq]]];
      [ rewrite Forall_forall in A1 | rewrite Forall_forall in A2
      | rewrite Forall_forall in A3 | rewrite Forall_forall in A4 ]; auto. }
  destruct Hq' as [f [Hf [-> _]]]. exists f. split; [exact Hf|]. split; [reflexivity|].
  intros Hne He Hpre Hc. rewrite py_replace_path_join by assumption. reflexivity.
Qed.

(* ------------------------------------------------------------------ *)
(** ** [generate_prompt]: totality and the theme default *)

Lemma dict_lookup_absent {V} (d : dict V) k :
  ~ In k (map fst d) -> dict_lookup d k = None.
Proof.
  induction d as [|[k' v] d IH]; intros H; [reflexivity|].
  cbn in *. destruct (String.eqb k k') eqn:E.
  - apply String.eqb_eq in E. subst. tauto.
  - apply IH. tauto.
Qed.

(** [generate_prompt] never raises: for every product name, image type,
    theme name and integer variation (negative ones included) it returns
    a prompt; unknown themes and image types fall back to the defaults,
    and Python's [%] keeps every index in range. *)
Theorem generate_prompt_never_raises name image_type theme_name variation :
  exists p, generate_prompt name image_type theme_name variation = Ok p.
Proof. apply generate_prompt_ok. Qed.

(** A theme name that is not a key of [themes] gives the same prompt as
    "technology", for every product, image type and variation. *)
Theorem generate_prompt_unknown_theme name image_type theme_name variation :
  ~ In theme_name (map fst themes) ->
  generate_prompt name image_type theme_name variation =
  generate_prompt name image_type "technology" variation.
Proof.
  intros H. unfold generate_prompt.
  assert (E : theme_data_of theme_name = theme_data_of "technology").
  { unfold theme_data_of, dict_get at 1. rewrite (dict_lookup_absent _ _ H). reflexivity. }
  now rewrite E.
Qed.

Lemma generate_prompt_unknown_theme_witness :
  ~ In "gardening" (map fst themes) /\
  generate_prompt "Trowel" "hero_background" "gardening" 2 =
  generate_prompt "Trowel" "hero_background" "technology" 2.
Proof.
  assert (H : ~ In "gardening" (map fst themes)) by (cbn; intuition discriminate).
  split; [exact H|]. exact (generate_prompt_unknown_theme "Trowel" "hero_background" "gardening" 2 H).
Defined.
